(** * Cargo payment calculator: a shallow embedding of [cargo_payment.py]

    The Python module computes the income of a delivery in OpenTTD from the
    cargo type, the amount, the distance and the transit time, and sweeps
    distances and speeds to build the columns of a data frame.

    Python numbers are duck typed: the same function body runs on [int] and on
    [float] arguments.  The embedding follows this: the functions are written
    once over a class [PyNumber] of numeric operations, and instantiated
      - at [Q], exact rational arithmetic, where the algebraic properties
        are proved, and
      - at [float], IEEE 754 binary64, which is what CPython computes with,
        where concrete runs are evaluated.
    Exceptions are values of [exn], carried by the [result] type. *)

From Stdlib Require Import ZArith QArith Qabs Qfield Lqa Lia List String Bool Floats.
Import ListNotations.

Set Implicit Arguments.

(** ** Exceptions and results *)

Inductive exn : Type :=
| ValueError (msg : string)
| TypeError
| IndexError
| ZeroDivisionError.

Inductive result (A : Type) : Type :=
| Ok (a : A)
| Raise (e : exn).

Arguments Ok {A} a.
Arguments Raise {A} e.

Definition bind {A B : Type} (r : result A) (k : A -> result B) : result B :=
  match r with
  | Ok a => k a
  | Raise e => Raise e
  end.

Declare Scope py_scope.
Delimit Scope py_scope with py.

Notation "x <- r ;; k" := (bind r (fun x => k))
  (at level 61, r at next level, right associativity) : py_scope.

(** ** Numbers

    [of_Z] injects a Python [int]; [of_Q] is a float literal or an exactly
    representable constant; [truediv] is the quotient of [/] when the divisor
    is not zero, and [is_zero] is the test that makes [/] raise. *)

Class PyNumber (T : Type) : Type := {
  of_Z : Z -> T;
  of_Q : Q -> T;
  add : T -> T -> T;
  sub : T -> T -> T;
  mul : T -> T -> T;
  truediv : T -> T -> T;
  is_zero : T -> bool;
  leb : T -> T -> bool;
  ltb : T -> T -> bool
}.

Infix "+" := add : py_scope.
Infix "-" := sub : py_scope.
Infix "*" := mul : py_scope.
Infix "<=?" := leb : py_scope.
Infix "<?" := ltb : py_scope.

(** Python's [x / y]: [ZeroDivisionError] on a zero divisor. *)
Definition pydiv {T} `{PyNumber T} (x y : T) : result T :=
  if is_zero y then Raise ZeroDivisionError else Ok (truediv x y).

(** Exact rationals. *)
Definition Qlt_bool (x y : Q) : bool := negb (Qle_bool y x).

#[export] Instance PyNumber_Q : PyNumber Q := {
  of_Z := inject_Z;
  of_Q := fun q => q;
  add := Qplus;
  sub := Qminus;
  mul := Qmult;
  truediv := Qdiv;
  is_zero := fun x => Qeq_bool x 0;
  leb := Qle_bool;
  ltb := Qlt_bool
}.

(** Binary64.  An [int] is rounded to the nearest float, as CPython does when
    an [int] meets a [float] (CPython raises [OverflowError] beyond the float
    range, where this conversion gives an infinity). *)
Definition float_of_Z (z : Z) : float :=
  SF2Prim (binary_normalize prec emax z 0 false).

Definition float_of_Q (q : Q) : float :=
  PrimFloat.div (float_of_Z (Qnum q)) (float_of_Z (Z.pos (Qden q))).

#[export] Instance PyNumber_float : PyNumber float := {
  of_Z := float_of_Z;
  of_Q := float_of_Q;
  add := PrimFloat.add;
  sub := PrimFloat.sub;
  mul := PrimFloat.mul;
  truediv := PrimFloat.div;
  is_zero := fun x => PrimFloat.eqb x PrimFloat.zero;
  leb := PrimFloat.leb;
  ltb := PrimFloat.ltb
}.

(** The rational value of a finite float. *)
Definition Q_of_float (x : float) : option Q :=
  match Prim2SF x with
  | S754_zero _ => Some 0%Q
  | S754_finite s m e =>
      let mag :=
        match e with
        | Z0 => inject_Z (Z.pos m)
        | Zpos p => inject_Z (Z.pos m * 2 ^ Z.pos p)
        | Zneg p => Z.pos m # (2 ^ p)
        end in
      Some (if s then Qopp mag else mag)
  | S754_infinity _ => None
  | S754_nan => None
  end.

(** ** The cargo table: [class Cargo(Enum)]

    The class body binds 33 names to (base pay, days1, days2) triples. *)

Definition triple : Type := (Z * Z * Z)%type.

Definition Cargo_body : list (string * triple) := [
  ("Batteries",        (4322,  2,  30));
  ("Bubbles",          (5077, 20,  80));
  ("Candyfloss",       (5005, 10,  25));
  ("Coal",             (5916,  7, 255));
  ("Cola",             (4892,  5,  75));
  ("Copper_Ore",       (4892, 12, 255));
  ("Diamonds",         (5802, 10, 255));
  ("Fizzy_Drinks",     (6250, 30,  50));
  ("Food",             (5688,  0,  30));
  ("Fruit",            (4209,  0,  15));
  ("Gold",             (5802, 10,  40));
  ("Goods",            (6144,  5,  28));
  ("Grain",            (4778,  4,  40));
  ("Iron_Ore",         (5120,  9, 255));
  ("Livestock",        (4322,  4,  18));
  ("Mail",             (4550, 20,  90));
  ("Maize",            (4322,  4,  40));
  ("Oil",              (4437, 25, 255));
  ("Oil_subtropical",  (4892, 25, 255));
  ("Paper",            (5461,  7,  60));
  ("Passengers",       (3185,  0,  24));
  ("Plastic",          (4664, 30, 255));
  ("Rubber",           (4437,  2,  20));
  ("Steel",            (5688,  7, 255));
  ("Sugar",            (4437, 20, 255));
  ("Sweets",           (6144,  8,  40));
  ("Toffee",           (4778, 14,  60));
  ("Toys",             (5574, 25, 255));
  ("Valuables",        (7509,  1,  32));
  ("Water",            (4664, 20,  80));
  ("Wheat",            (4778,  4,  40));
  ("Wood",             (5005, 15, 255));
  ("Wood_subtropical", (7964, 15, 255))
]%string%Z.

(** [Enum] turns the body into members: a name whose value is already the
    value of an earlier member is an alias of that member, not a new one. *)
Definition triple_eqb (a b : triple) : bool :=
  let '(a1, a2, a3) := a in
  let '(b1, b2, b3) := b in
  ((a1 =? b1) && (a2 =? b2) && (a3 =? b3))%Z.

Fixpoint enum_members (body members : list (string * triple))
  : list (string * triple) :=
  match body with
  | [] => members
  | (n, v) :: rest =>
      if existsb (fun m => triple_eqb (snd m) v) members
      then enum_members rest members
      else enum_members rest (members ++ [(n, v)])
  end.

(** The names that [Enum] made aliases, each with the member it stands for. *)
Fixpoint enum_aliases (body members : list (string * triple))
  : list (string * string) :=
  match body with
  | [] => []
  | (n, v) :: rest =>
      match find (fun m => triple_eqb (snd m) v) members with
      | Some m => (n, fst m) :: enum_aliases rest members
      | None => enum_aliases rest (members ++ [(n, v)])
      end
  end.

(** The members of [Cargo] as a type; [Wheat] is an alias of [Grain]. *)
Inductive Cargo : Type :=
| Batteries | Bubbles | Candyfloss | Coal | Cola | Copper_Ore | Diamonds
| Fizzy_Drinks | Food | Fruit | Gold | Goods | Grain | Iron_Ore | Livestock
| Mail | Maize | Oil | Oil_subtropical | Paper | Passengers | Plastic
| Rubber | Steel | Sugar | Sweets | Toffee | Toys | Valuables | Water
| Wood | Wood_subtropical.

Definition Wheat : Cargo := Grain.

(** [cargo.value] *)
Definition value (c : Cargo) : triple :=
  match c with
  | Batteries        => (4322,  2,  30)
  | Bubbles          => (5077, 20,  80)
  | Candyfloss       => (5005, 10,  25)
  | Coal             => (5916,  7, 255)
  | Cola             => (4892,  5,  75)
  | Copper_Ore       => (4892, 12, 255)
  | Diamonds         => (5802, 10, 255)
  | Fizzy_Drinks     => (6250, 30,  50)
  | Food             => (5688,  0,  30)
  | Fruit            => (4209,  0,  15)
  | Gold             => (5802, 10,  40)
  | Goods            => (6144,  5,  28)
  | Grain            => (4778,  4,  40)
  | Iron_Ore         => (5120,  9, 255)
  | Livestock        => (4322,  4,  18)
  | Mail             => (4550, 20,  90)
  | Maize            => (4322,  4,  40)
  | Oil              => (4437, 25, 255)
  | Oil_subtropical  => (4892, 25, 255)
  | Paper            => (5461,  7,  60)
  | Passengers       => (3185,  0,  24)
  | Plastic          => (4664, 30, 255)
  | Rubber           => (4437,  2,  20)
  | Steel            => (5688,  7, 255)
  | Sugar            => (4437, 20, 255)
  | Sweets           => (6144,  8,  40)
  | Toffee           => (4778, 14,  60)
  | Toys             => (5574, 25, 255)
  | Valuables        => (7509,  1,  32)
  | Water            => (4664, 20,  80)
  | Wood             => (5005, 15, 255)
  | Wood_subtropical => (7964, 15, 255)
  end%Z.

(** [cargo.name] *)
Definition name (c : Cargo) : string :=
  match c with
  | Batteries => "Batteries" | Bubbles => "Bubbles"
  | Candyfloss => "Candyfloss" | Coal => "Coal" | Cola => "Cola"
  | Copper_Ore => "Copper_Ore" | Diamonds => "Diamonds"
  | Fizzy_Drinks => "Fizzy_Drinks" | Food => "Food" | Fruit => "Fruit"
  | Gold => "Gold" | Goods => "Goods" | Grain => "Grain"
  | Iron_Ore => "Iron_Ore" | Livestock => "Livestock" | Mail => "Mail"
  | Maize => "Maize" | Oil => "Oil" | Oil_subtropical => "Oil_subtropical"
  | Paper => "Paper" | Passengers => "Passengers" | Plastic => "Plastic"
  | Rubber => "Rubber" | Steel => "Steel" | Sugar => "Sugar"
  | Sweets => "Sweets" | Toffee => "Toffee" | Toys => "Toys"
  | Valuables => "Valuables" | Water => "Water" | Wood => "Wood"
  | Wood_subtropical => "Wood_subtropical"
  end%string.

(** [list(Cargo)]: the members in definition order. *)
Definition Cargo_iter : list Cargo := [
  Batteries; Bubbles; Candyfloss; Coal; Cola; Copper_Ore; Diamonds;
  Fizzy_Drinks; Food; Fruit; Gold; Goods; Grain; Iron_Ore; Livestock;
  Mail; Maize; Oil; Oil_subtropical; Paper; Passengers; Plastic;
  Rubber; Steel; Sugar; Sweets; Toffee; Toys; Valuables; Water;
  Wood; Wood_subtropical ].

Definition base_pay_of (c : Cargo) : Z := fst (fst (value c)).
Definition days1_of (c : Cargo) : Z := snd (fst (value c)).
Definition days2_of (c : Cargo) : Z := snd (value c).

(** ** Python objects received for [is_aircraft]

    The parameter is documented as a [bool], its default is [False], and the
    length check of [income_vs_distance_speed] needs a list: both shapes are
    modelled, with Python's truth value and [len]. *)

Inductive pyobj : Type :=
| PyBool (b : bool)
| PyList (l : list bool).

(** [bool(o)], as the [if] statement evaluates it. *)
Definition truthy (o : pyobj) : bool :=
  match o with
  | PyBool b => b
  | PyList [] => false
  | PyList (_ :: _) => true
  end.

(** [len(o)]: a [bool] has no length. *)
Definition py_len (o : pyobj) : result nat :=
  match o with
  | PyBool _ => Raise TypeError
  | PyList l => Ok (List.length l)
  end.

(** [range(start, stop)] *)
Definition range (start stop : Z) : list Z :=
  map (fun k => (start + Z.of_nat k)%Z) (seq 0 (Z.to_nat (stop - start))).

(** ** The functions of the module, over any [PyNumber] *)

Section Core.

Context {T : Type} {N : PyNumber T}.

Local Open Scope py_scope.

(** [pow(2,-21)]: exactly 2^-21. *)
Definition pow_2_m21 : T := of_Q (1 # 2097152).

(** [def income(cargo,amount,distance,time, ingametime=True)] *)
Definition income (cargo : Cargo) (amount distance time : T)
           (ingametime : bool) : T :=
  let time := if ingametime then time * of_Q (5 # 2) else time in
  let '(base_pay, days1, days2) := value cargo in
  let tbonus :=
    if time <=? of_Z days1 then
      of_Z 255
    else if (of_Z days1 <? time) && (time <=? of_Z (days1 + days2)) then
      of_Z 255 - (time - of_Z days1)
    else
      of_Z 255 - of_Z 2 * (time - of_Z days1) + of_Z days2 in
  if tbonus <? of_Z 31 then
    of_Z base_pay * amount * of_Z 31 * pow_2_m21
  else
    of_Z base_pay * amount * distance * tbonus * pow_2_m21.

(** [def speed_distance_to_time(speed,distance,aircraft=False)].
    The divisions by the literals 4 and 668 cannot raise; the last
    division raises when [speed_tiles_per_day] is zero. *)
Definition speed_distance_to_time (speed distance : T) (aircraft : pyobj)
  : result T :=
  let speed := if truthy aircraft then truediv speed (of_Z 4) else speed in
  let speed_tiles_per_day := truediv (speed * of_Z 24) (of_Z 668) in
  pydiv distance speed_tiles_per_day.

(** *** The four column lists, mutated by the loops *)

Record columns : Type := {
  speed_col : list T;
  distance_col : list Z;
  time_col : list T;
  income_col : list T
}.

Definition empty_columns : columns :=
  {| speed_col := []; distance_col := []; time_col := []; income_col := [] |}.

(** State and exception monad of the loop body. *)
Definition M (A : Type) : Type := columns -> result (A * columns).

Definition ret {A} (a : A) : M A := fun s => Ok (a, s).

Definition mbind {A B} (m : M A) (k : A -> M B) : M B :=
  fun s => match m s with
           | Ok (a, s') => k a s'
           | Raise e => Raise e
           end.

Definition lift {A} (r : result A) : M A :=
  fun s => match r with
           | Ok a => Ok (a, s)
           | Raise e => Raise e
           end.

Notation "x <~ m ;; k" := (mbind m (fun x => k))
  (at level 61, m at next level, right associativity).
Notation "m ;;; k" := (mbind m (fun _ => k))
  (at level 61, right associativity).

(** [speed_col += xs] *)
Definition extend_speed (xs : list T) : M unit :=
  fun s => Ok (tt, {| speed_col := speed_col s ++ xs;
                      distance_col := distance_col s;
                      time_col := time_col s;
                      income_col := income_col s |}).

(** [distance_col += xs] *)
Definition extend_distance (xs : list Z) : M unit :=
  fun s => Ok (tt, {| speed_col := speed_col s;
                      distance_col := distance_col s ++ xs;
                      time_col := time_col s;
                      income_col := income_col s |}).

(** [time_col.append(x)] *)
Definition append_time (x : T) : M unit :=
  fun s => Ok (tt, {| speed_col := speed_col s;
                      distance_col := distance_col s;
                      time_col := time_col s ++ [x];
                      income_col := income_col s |}).

(** [income_col.append(x)] *)
Definition append_income (x : T) : M unit :=
  fun s => Ok (tt, {| speed_col := speed_col s;
                      distance_col := distance_col s;
                      time_col := time_col s;
                      income_col := income_col s ++ [x] |}).

(** [time_col[-1]] *)
Definition last_time : M T :=
  fun s => match rev (time_col s) with
           | x :: _ => Ok (x, s)
           | [] => Raise IndexError
           end.

(** [xs[i]] *)
Definition getitem {A} (xs : list A) (i : nat) : result A :=
  match nth_error xs i with
  | Some x => Ok x
  | None => Raise IndexError
  end.

(** [for x in xs: body(x)] *)
Fixpoint for_each {A} (xs : list A) (body : A -> M unit) : M unit :=
  match xs with
  | [] => ret tt
  | x :: rest => body x ;;; for_each rest body
  end.

(** The body of the inner loop, lines 110-111. *)
Definition inner_body (cargo : Cargo) (speeds : list T) (i : nat)
           (is_aircraft : pyobj) (distance : Z) : M unit :=
  speed <~ lift (getitem speeds i) ;;
  time <~ lift (speed_distance_to_time speed (of_Z distance) is_aircraft) ;;
  append_time time ;;;
  last <~ last_time ;;
  append_income (income cargo (of_Z 1) (of_Z distance) last true).

(** The body of the outer loop, lines 107-111. *)
Definition outer_body (cargo : Cargo) (distance_bounds : Z * Z)
           (speeds : list T) (is_aircraft : pyobj) (i : nat) : M unit :=
  let '(lo, hi) := distance_bounds in
  speed <~ lift (getitem speeds i) ;;
  extend_speed (repeat speed (List.length (range lo (hi + 1)))) ;;;
  extend_distance (range lo (hi + 1)) ;;;
  for_each (range lo (hi + 1)) (inner_body cargo speeds i is_aircraft).

(** [pd.DataFrame({...})]: the columns must have one length. *)
Definition DataFrame (s : columns) : result columns :=
  let n := List.length (speed_col s) in
  if (Nat.eqb (List.length (distance_col s)) n
      && Nat.eqb (List.length (time_col s)) n
      && Nat.eqb (List.length (income_col s)) n)%bool
  then Ok s
  else Raise (ValueError "All arrays must be of the same length").

(** Lines 102-113: the loops and the data frame. *)
Definition populate (cargo : Cargo) (distance_bounds : Z * Z)
           (speeds : list T) (is_aircraft : pyobj) : result columns :=
  match for_each (seq 0 (List.length speeds))
                 (outer_body cargo distance_bounds speeds is_aircraft)
                 empty_columns with
  | Ok (_, s) => DataFrame s
  | Raise e => Raise e
  end.

(** [def income_vs_distance_speed(cargo, distance_bounds=[0,500],
    speeds=[50], is_aircraft=False)], up to the data frame [df] that the
    returned figure plots. [distance_bounds] is the pair of its two
    elements. *)
Definition income_vs_distance_speed (cargo : Cargo)
           (distance_bounds : Z * Z) (speeds : list T)
           (is_aircraft : pyobj) : result columns :=
  (n <- py_len is_aircraft ;;
   if negb (Nat.eqb (List.length speeds) n) then
     Raise (ValueError "speeds and aircraft must be of same length")
   else
     populate cargo distance_bounds speeds is_aircraft)%py.

(** The default values of the signature. *)
Definition default_distance_bounds : Z * Z := (0, 500)%Z.
Definition default_speeds : list T := [of_Z 50].
Definition default_is_aircraft : pyobj := PyBool false.

(** A call that may leave out the optional arguments. *)
Definition call_income_vs_distance_speed (cargo : Cargo)
           (distance_bounds : option (Z * Z)) (speeds : option (list T))
           (is_aircraft : option pyobj) : result columns :=
  income_vs_distance_speed cargo
    (match distance_bounds with Some b => b | None => default_distance_bounds end)
    (match speeds with Some l => l | None => default_speeds end)
    (match is_aircraft with Some o => o | None => default_is_aircraft end).

(** One row of the data frame. *)
Record sample : Type := {
  Speed : T;
  Distance : Z;
  Time : T;
  Income : T
}.

Fixpoint zip_rows (sp : list T) (di : list Z) (ti inc : list T)
  : list sample :=
  match sp, di, ti, inc with
  | s :: sp', d :: di', t :: ti', r :: inc' =>
      {| Speed := s; Distance := d; Time := t; Income := r |}
        :: zip_rows sp' di' ti' inc'
  | _, _, _, _ => []
  end.

Definition rows (df : columns) : list sample :=
  zip_rows (speed_col df) (distance_col df) (time_col df) (income_col df).

End Core.

Arguments columns T : clear implicits.
Arguments sample T : clear implicits.
Arguments M T A : clear implicits.

(** ** The time bonus, as the specification words it

    The three cases of the specification's time bonus, stated over exact
    rationals: [tbonus_spec days1 days2 time tb] reads "the time bonus of
    the scaled [time] is [tb]".  The code's [income] is compared with it
    below. *)

Inductive tbonus_spec (days1 days2 : Z) (time : Q) : Q -> Prop :=
| tbonus_full :
    time <= inject_Z days1 ->
    tbonus_spec days1 days2 time 255
| tbonus_decay :
    inject_Z days1 < time ->
    time <= inject_Z days1 + inject_Z days2 ->
    tbonus_spec days1 days2 time (255 - (time - inject_Z days1))
| tbonus_late :
    ~ time <= inject_Z days1 ->
    ~ (inject_Z days1 < time /\ time <= inject_Z days1 + inject_Z days2) ->
    tbonus_spec days1 days2 time
                (255 - 2 * (time - inject_Z days1) + inject_Z days2).

(** The time unit of the formula: 2.5 per ingame day when the flag is set. *)
Definition scaled_time (time : Q) (ingametime : bool) : Q :=
  if ingametime then time * (5 # 2) else time.

(** ** Auxiliary definitions for the statements *)

Section TimeDefs.

Local Open Scope Q_scope.

(** The speed after the aircraft adjustment, and the tiles per day. *)
Definition effective_speed (speed : Q) (aircraft : pyobj) : Q :=
  if truthy aircraft then speed / 4 else speed.

Definition tiles_per_day (speed : Q) (aircraft : pyobj) : Q :=
  effective_speed speed aircraft * 24 / 668.

End TimeDefs.

Section ScenarioDefs.

Local Open Scope Q_scope.

(** The exact values of the derivation. *)
Definition scenario_time : Q := 100 / (100 * 24 / 668).
Definition scenario_scaled : Q := scaled_time scenario_time true.
Definition scenario_tbonus : Q :=
  255 - 2 * (scenario_scaled - inject_Z 0) + inject_Z 24.
Definition scenario_income : Q :=
  3185 * 1 * 100 * scenario_tbonus * (1 # 2097152).

(** The same run in binary64. *)
Definition scenario_income_float : result float :=
  (time <- speed_distance_to_time (of_Z 100) (of_Z 100) (PyBool false) ;;
   Ok (income Passengers (of_Z 1) (of_Z 100) time true))%py.

End ScenarioDefs.

(** [mapM f xs]: the results of [f] in order, or the first exception. *)
Fixpoint mapM {A B : Type} (f : A -> result B) (xs : list A) : result (list B) :=
  match xs with
  | [] => Ok []
  | x :: rest =>
      match f x with
      | Ok y => match mapM f rest with
                | Ok ys => Ok (y :: ys)
                | Raise e => Raise e
                end
      | Raise e => Raise e
      end
  end.

Section SweepDefs.

Context {T : Type} {N : PyNumber T}.

Variable cargo : Cargo.
Variable is_aircraft : pyobj.

(** The times of one speed over the distances, with the object that the
    loop passes as the aircraft flag. *)
Definition sweep_times (speed : T) (ds : list Z) : result (list T) :=
  mapM (fun d => speed_distance_to_time speed (of_Z d) is_aircraft) ds.

Definition sweep_incomes (ds : list Z) (ts : list T) : list T :=
  map (fun dt => income cargo (of_Z 1) (of_Z (fst dt)) (snd dt) true)
      (combine ds ts).

(** The columns after the block of one speed. *)
Definition add_block (s : columns T) (speed : T) (ds : list Z) (ts : list T)
  : columns T :=
  {| speed_col := speed_col s ++ repeat speed (List.length ds);
     distance_col := distance_col s ++ ds;
     time_col := time_col s ++ ts;
     income_col := income_col s ++ sweep_incomes ds ts |}.

(** The loops as a fold over the speeds. *)
Fixpoint sweep (ds : list Z) (speeds : list T) (s : columns T)
  : result (columns T) :=
  match speeds with
  | [] => Ok s
  | speed :: rest =>
      match sweep_times speed ds with
      | Ok ts => sweep ds rest (add_block s speed ds ts)
      | Raise e => Raise e
      end
  end.

(** The four columns have one length. *)
Definition aligned (s : columns T) : Prop :=
  List.length (distance_col s) = List.length (speed_col s)
  /\ List.length (time_col s) = List.length (speed_col s)
  /\ List.length (income_col s) = List.length (speed_col s).

(** What the loop body establishes for the row of one speed and distance. *)
Definition row_ok (speeds : list T) (ds : list Z) (r : sample T) : Prop :=
  In (Speed r) speeds
  /\ In (Distance r) ds
  /\ speed_distance_to_time (Speed r) (of_Z (Distance r)) is_aircraft
     = Ok (Time r)
  /\ Income r = income cargo (of_Z 1) (of_Z (Distance r)) (Time r) true.

End SweepDefs.

(** The exception of the length check. *)
Definition length_mismatch : exn :=
  ValueError "speeds and aircraft must be of same length".

(** The scaled time beyond which the time bonus is below 31: 224 units
    after [days1] when the second period is longer than that, and otherwise
    half of 224 + [days2] units after [days1]. *)
Definition floor_threshold (c : Cargo) : Q :=
  inject_Z (days1_of c)
  + (if (days2_of c <=? 224)%Z
     then (224 + inject_Z (days2_of c)) / 2
     else 224).

(** The columns that lines 107 and 108 build: every speed repeated once per
    distance, and the distances once per speed. *)
Definition grouped_speeds {T : Type} (speeds : list T) (n : nat) : list T :=
  flat_map (fun speed => repeat speed n) speeds.

Definition grouped_distances {T : Type} (speeds : list T) (ds : list Z)
  : list Z :=
  flat_map (fun _ => ds) speeds.

(** ** The callback of the dashboard: [update_graph]

    The callback receives whatever the components hold.  [pyvalue] is the
    universe of these values: [None], booleans, integers, floats, strings,
    lists, and members of [Cargo]. *)

#[local] Unset Elimination Schemes.

Inductive pyvalue (T : Type) : Type :=
| VNone
| VBool (b : bool)
| VInt (z : Z)
| VFloat (x : T)
| VStr (s : string)
| VList (l : list (pyvalue T))
| VCargo (c : Cargo).

#[local] Set Elimination Schemes.

Arguments VNone {T}.
Arguments VBool {T} b.
Arguments VInt {T} z.
Arguments VFloat {T} x.
Arguments VStr {T} s.
Arguments VList {T} l.
Arguments VCargo {T} c.

(** [v[i]] for an index literal [i] >= 0: lists and strings are indexed,
    nothing else is subscriptable. *)
Definition subscript {T : Type} (v : pyvalue T) (i : nat) : result (pyvalue T) :=
  match v with
  | VList l =>
      match nth_error l i with
      | Some x => Ok x
      | None => Raise IndexError
      end
  | VStr s =>
      match String.get i s with
      | Some c => Ok (VStr (String c EmptyString))
      | None => Raise IndexError
      end
  | VNone | VBool _ | VInt _ | VFloat _ | VCargo _ => Raise TypeError
  end.

(** A call with positional arguments only: the arguments fill the parameters
    from the left, a parameter left over takes its default, and a missing
    required argument or an argument too many is a [TypeError]. *)
Fixpoint bind_positional {V : Type} (params : list (string * option V))
         (args : list V) : result (list (string * V)) :=
  match params, args with
  | [], [] => Ok []
  | [], _ :: _ => Raise TypeError
  | (p, default) :: params', [] =>
      match default with
      | Some d =>
          match bind_positional params' [] with
          | Ok rest => Ok ((p, d) :: rest)
          | Raise e => Raise e
          end
      | None => Raise TypeError
      end
  | (p, _) :: params', a :: args' =>
      match bind_positional params' args' with
      | Ok rest => Ok ((p, a) :: rest)
      | Raise e => Raise e
      end
  end.

(** The parameters of [income_vs_distance_speed], line 91. *)
Definition income_vs_distance_speed_params {T : Type}
  : list (string * option (pyvalue T)) :=
  [ ("cargo", None);
    ("distance_bounds", Some (VList [VInt 0; VInt 500]));
    ("speeds", Some (VList [VInt 50]));
    ("is_aircraft", Some (VBool false)) ]%string%Z.

Section Callback.

Context {T : Type}.

(** The figure type, and the body of [income_vs_distance_speed] run on the
    bound arguments: the callback is modelled for any such body. *)
Variable figure : Type.
Variable run_body : list (string * pyvalue T) -> result figure.

(** [def update_graph(n_intervals,amount,distance,speed,is_aircraft,cargo)]:
    the values printed, in order, and the outcome of the return statement,
    whose arguments are evaluated from left to right before the call. *)
Definition update_graph
           (n_intervals amount distance speed is_aircraft cargo : pyvalue T)
  : list (pyvalue T) * result figure :=
  ([n_intervals; amount; distance; speed; is_aircraft; cargo],
   (d0 <- subscript distance 0 ;;
    d1 <- subscript distance 1 ;;
    bound <- bind_positional income_vs_distance_speed_params
               [cargo; amount; VList [d0; d1]; speed; is_aircraft] ;;
    run_body bound)%py).

End Callback.

(** * Properties *)

(** ** Comparisons on [Q] *)

Lemma Qlt_bool_iff (x y : Q) : Qlt_bool x y = true <-> x < y.
Proof.
  unfold Qlt_bool. rewrite negb_true_iff.
  split; intro H.
  - apply Qnot_le_lt. intro Hle. apply Qle_bool_iff in Hle. congruence.
  - destruct (Qle_bool y x) eqn:E; [|reflexivity].
    apply Qle_bool_iff in E. exfalso. exact (Qlt_not_le _ _ H E).
Qed.

Lemma Qle_bool_false (x y : Q) : Qle_bool x y = false <-> y < x.
Proof.
  rewrite <- Qlt_bool_iff. unfold Qlt_bool.
  destruct (Qle_bool x y); simpl; intuition congruence.
Qed.

Lemma Qlt_bool_false (x y : Q) : Qlt_bool x y = false <-> y <= x.
Proof.
  unfold Qlt_bool. rewrite negb_false_iff. apply Qle_bool_iff.
Qed.

(** Turn the boolean tests of the code into order facts. *)
Ltac q_reflect :=
  repeat match goal with
    | H : Qle_bool _ _ = true |- _ => apply Qle_bool_iff in H
    | H : Qle_bool _ _ = false |- _ => apply Qle_bool_false in H
    | H : Qlt_bool _ _ = true |- _ => apply Qlt_bool_iff in H
    | H : Qlt_bool _ _ = false |- _ => apply Qlt_bool_false in H
    | H : andb _ _ = true |- _ => apply andb_true_iff in H; destruct H
    | H : andb _ _ = false |- _ => apply andb_false_iff in H; destruct H
    end;
  rewrite ?inject_Z_plus in *.

(** ** The cargo table *)

Lemma Cargo_enumerated (c : Cargo) : In c Cargo_iter.
Proof. destruct c; simpl; tauto. Qed.

Lemma base_pay_pos (c : Cargo) : (0 < base_pay_of c)%Z.
Proof. destruct c; reflexivity. Qed.

Lemma days1_nonneg (c : Cargo) : (0 <= days1_of c)%Z.
Proof. destruct c; unfold days1_of; simpl; lia. Qed.

Lemma days2_nonneg (c : Cargo) : (0 <= days2_of c)%Z.
Proof. destruct c; unfold days2_of; simpl; lia. Qed.

Lemma value_unpack (c : Cargo) :
  value c = (base_pay_of c, days1_of c, days2_of c).
Proof. destruct c; reflexivity. Qed.

(** The class body has 33 names, one of which, [Wheat], repeats the value of
    [Grain] and is therefore an alias. *)
Lemma Cargo_body_names :
  List.length Cargo_body = 33%nat
  /\ enum_aliases Cargo_body [] = [("Wheat", "Grain")]%string
  /\ Wheat = Grain.
Proof. repeat split. Qed.

(** C8: the catalog that [Enum] builds from the class body has exactly 32
    members, which are the members of the type [Cargo] with their names and
    values in definition order; every member carries an integer triple with a
    positive base pay and non-negative [days1] and [days2]; [Passengers] is
    (3185, 0, 24).  The table is a constant: no function of the module takes
    it as an argument or returns it. *)
Theorem C8_cargo_catalog :
  List.length (enum_members Cargo_body []) = 32%nat
  /\ enum_members Cargo_body [] = map (fun c => (name c, value c)) Cargo_iter
  /\ NoDup (map name Cargo_iter)
  /\ (forall c : Cargo,
        In c Cargo_iter
        /\ (0 < base_pay_of c)%Z /\ (0 <= days1_of c)%Z /\ (0 <= days2_of c)%Z)
  /\ value Passengers = (3185, 0, 24)%Z.
Proof.
  split; [reflexivity|].
  split; [reflexivity|].
  split.
  - simpl. repeat (constructor; [simpl; intuition discriminate|]). constructor.
  - split; [|reflexivity].
    intro c. auto using Cargo_enumerated, base_pay_pos, days1_nonneg, days2_nonneg.
Qed.

(** ** The income formula *)

Section IncomeQ.

Local Open Scope Q_scope.

Variable cargo : Cargo.

Let bp : Q := inject_Z (base_pay_of cargo).
Let d1 : Z := days1_of cargo.
Let d2 : Z := days2_of cargo.

(** The code's three-way test computes a time bonus that the
    specification's cases accept. *)
Lemma tbonus_spec_total (time : Q) : exists tb, tbonus_spec d1 d2 time tb.
Proof.
  destruct (Qlt_le_dec (inject_Z d1) time) as [Hlt|Hle].
  - destruct (Qlt_le_dec (inject_Z d1 + inject_Z d2) time) as [Hlt2|Hle2].
    + eexists. apply tbonus_late; [lra|]. intros [_ H]. lra.
    + eexists. apply tbonus_decay; assumption.
  - eexists. apply tbonus_full; assumption.
Qed.

Lemma tbonus_spec_functional (time tb tb' : Q) :
  tbonus_spec d1 d2 time tb -> tbonus_spec d1 d2 time tb' -> tb = tb'.
Proof.
  intros H H'. destruct H; destruct H'; try reflexivity; exfalso;
    try lra; tauto.
Qed.

(** What [income] returns, in terms of the specification's time bonus. *)
Lemma income_unfold (amount distance time : Q) (ingametime : bool) (tb : Q) :
  tbonus_spec d1 d2 (scaled_time time ingametime) tb ->
  income cargo amount distance time ingametime =
    if Qlt_bool tb 31
    then bp * amount * 31 * (1 # 2097152)
    else bp * amount * distance * tb * (1 # 2097152).
Proof.
  intro Hspec. unfold income, scaled_time in *.
  rewrite (value_unpack cargo). fold d1 d2. fold bp.
  cbn [of_Z of_Q add sub mul leb ltb PyNumber_Q pow_2_m21].
  set (t := if ingametime then time * (5 # 2) else time) in *.
  destruct (Qle_bool t (inject_Z d1)) eqn:E1.
  - q_reflect. inversion Hspec; subst; try reflexivity; exfalso; lra.
  - destruct (Qlt_bool (inject_Z d1) t && Qle_bool t (inject_Z (d1 + d2)))
      eqn:E2; q_reflect;
      inversion Hspec; subst; try reflexivity; exfalso; try lra; tauto.
Qed.

End IncomeQ.

(** C1: with [ingametime] set, [income] scales the time by 2.5; the scaled
    time always falls in one of the three cases of the time bonus (255, then
    255 - (time - days1), then 255 - 2*(time - days1) + days2, which is not
    clamped at zero); and whenever that bonus is at least 31 the result is
    exactly base_pay * amount * distance * tbonus * 2^-21. *)
Theorem C1_income_formula (cargo : Cargo) (amount distance time : Q) :
  scaled_time time true = time * (5 # 2)
  /\ (exists tb,
        tbonus_spec (days1_of cargo) (days2_of cargo) (scaled_time time true) tb)
  /\ (forall tb,
        tbonus_spec (days1_of cargo) (days2_of cargo) (scaled_time time true) tb ->
        31 <= tb ->
        income cargo amount distance time true =
          inject_Z (base_pay_of cargo) * amount * distance * tb * (1 # 2097152)).
Proof.
  split; [reflexivity|].
  split; [apply tbonus_spec_total|].
  intros tb Hspec Hge.
  rewrite (@income_unfold cargo amount distance time true tb Hspec).
  destruct (Qlt_bool tb 31) eqn:E; [|reflexivity].
  q_reflect. exfalso. lra.
Qed.

(** The third case does go below zero: it is not clamped.  Passengers after
    200 ingame days have a time bonus of -721. *)
Example tbonus_negative :
  let tb := 255 - 2 * (scaled_time 200 true - inject_Z (days1_of Passengers))
            + inject_Z (days2_of Passengers) in
  tbonus_spec (days1_of Passengers) (days2_of Passengers)
              (scaled_time 200 true) tb
  /\ tb == - (721 # 1).
Proof.
  split; [|reflexivity].
  apply tbonus_late.
  - intro H. vm_compute in H. apply H. reflexivity.
  - intros [_ H]. vm_compute in H. apply H. reflexivity.
Qed.

(** C3: whenever the time bonus of the scaled time is below 31, however far
    below, [income] returns exactly base_pay * amount * 31 * 2^-21; the value
    does not depend on the distance, and it is strictly positive when the
    amount is. *)
Theorem C3_income_floor (cargo : Cargo) (amount distance time : Q)
        (ingametime : bool) (tb : Q) :
  tbonus_spec (days1_of cargo) (days2_of cargo)
              (scaled_time time ingametime) tb ->
  tb < 31 ->
  income cargo amount distance time ingametime =
    inject_Z (base_pay_of cargo) * amount * 31 * (1 # 2097152)
  /\ (forall distance',
        income cargo amount distance' time ingametime =
          income cargo amount distance time ingametime)
  /\ (0 < amount -> 0 < income cargo amount distance time ingametime).
Proof.
  intros Hspec Hlt.
  assert (Hfloor : forall d,
             income cargo amount d time ingametime =
               inject_Z (base_pay_of cargo) * amount * 31 * (1 # 2097152)).
  { intro d. rewrite (@income_unfold cargo amount d time ingametime tb Hspec).
    destruct (Qlt_bool tb 31) eqn:E; [reflexivity|].
    q_reflect. exfalso. lra. }
  split; [apply Hfloor|].
  split.
  - intro d. rewrite !Hfloor. reflexivity.
  - intro Hpos. rewrite Hfloor.
    assert (Hbp : 0 < inject_Z (base_pay_of cargo)).
    { replace 0 with (inject_Z 0) by reflexivity.
      rewrite <- Zlt_Qlt. apply base_pay_pos. }
    repeat apply Qmult_lt_0_compat; try assumption; reflexivity.
Qed.

(** For a positive amount and a positive distance the income is positive
    whatever the time: below a bonus of 31 by the floor, above it because the
    bonus itself is positive. *)
Lemma income_positive (cargo : Cargo) (amount distance time : Q)
      (ingametime : bool) :
  0 < amount -> 0 < distance ->
  0 < income cargo amount distance time ingametime.
Proof.
  intros Ha Hd.
  destruct (tbonus_spec_total cargo (scaled_time time ingametime)) as [tb Hspec].
  assert (Hbp : 0 < inject_Z (base_pay_of cargo)).
  { replace 0 with (inject_Z 0) by reflexivity.
    rewrite <- Zlt_Qlt. apply base_pay_pos. }
  rewrite (@income_unfold cargo amount distance time ingametime tb Hspec).
  destruct (Qlt_bool tb 31) eqn:E; q_reflect.
  - repeat apply Qmult_lt_0_compat; try assumption; reflexivity.
  - repeat apply Qmult_lt_0_compat; try assumption; try reflexivity. lra.
Qed.

Lemma C3_income_floor_witness :
  income Passengers 1 100 200 true =
    inject_Z (base_pay_of Passengers) * 1 * 31 * (1 # 2097152)
  /\ (forall distance',
        income Passengers 1 distance' 200 true = income Passengers 1 100 200 true)
  /\ (0 < 1 -> 0 < income Passengers 1 100 200 true).
Proof.
  apply (@C3_income_floor Passengers 1 100 200 true
           (255 - 2 * (scaled_time 200 true - inject_Z (days1_of Passengers))
            + inject_Z (days2_of Passengers))).
  - exact (proj1 tbonus_negative).
  - reflexivity.
Defined.

(** ** The time model *)

Section TimeQ.

Local Open Scope Q_scope.

Lemma tiles_per_day_sign (speed : Q) (aircraft : pyobj) :
  tiles_per_day speed aircraft == speed * (if truthy aircraft then 6 # 668 else 24 # 668).
Proof.
  unfold tiles_per_day, effective_speed.
  destruct (truthy aircraft); field.
Qed.

Lemma tiles_per_day_pos (speed : Q) (aircraft : pyobj) :
  0 < speed -> 0 < tiles_per_day speed aircraft.
Proof.
  intro H. rewrite tiles_per_day_sign.
  apply Qmult_lt_0_compat; [assumption|].
  destruct (truthy aircraft); reflexivity.
Qed.

Lemma tiles_per_day_neg (speed : Q) (aircraft : pyobj) :
  speed < 0 -> tiles_per_day speed aircraft < 0.
Proof.
  intro H. rewrite tiles_per_day_sign.
  destruct (truthy aircraft); lra.
Qed.

Lemma tiles_per_day_zero (speed : Q) (aircraft : pyobj) :
  speed == 0 -> tiles_per_day speed aircraft == 0.
Proof.
  intro H. rewrite tiles_per_day_sign, H. ring.
Qed.

(** The function is one guarded division. *)
Lemma speed_distance_to_time_unfold (speed distance : Q) (aircraft : pyobj) :
  speed_distance_to_time speed distance aircraft =
    if Qeq_bool (tiles_per_day speed aircraft) 0
    then Raise ZeroDivisionError
    else Ok (distance / tiles_per_day speed aircraft).
Proof.
  unfold speed_distance_to_time, pydiv, tiles_per_day, effective_speed.
  destruct (truthy aircraft); reflexivity.
Qed.

Lemma speed_distance_to_time_nonzero (speed distance : Q) (aircraft : pyobj) :
  ~ speed == 0 ->
  speed_distance_to_time speed distance aircraft =
    Ok (distance / tiles_per_day speed aircraft).
Proof.
  intro Hs. rewrite speed_distance_to_time_unfold.
  destruct (Qeq_bool (tiles_per_day speed aircraft) 0) eqn:E; [|reflexivity].
  exfalso. apply Qeq_bool_iff in E. rewrite tiles_per_day_sign in E.
  apply Qmult_integral in E. destruct E as [E|E]; [exact (Hs E)|].
  destruct (truthy aircraft); discriminate E.
Qed.

Lemma speed_distance_to_time_zero (speed distance : Q) (aircraft : pyobj) :
  speed == 0 ->
  speed_distance_to_time speed distance aircraft = Raise ZeroDivisionError.
Proof.
  intro Hs. rewrite speed_distance_to_time_unfold.
  rewrite (Qeq_eq_bool _ _ (tiles_per_day_zero aircraft Hs)). reflexivity.
Qed.

(** A quotient by a negative divisor. *)
Lemma Qdiv_neg_divisor (x y : Q) :
  y < 0 -> (0 <= x -> x / y <= 0) /\ (0 < x -> x / y < 0).
Proof.
  intro Hy.
  assert (Hinv : 0 < - / y).
  { setoid_replace (- / y) with (/ - y) by (field; lra).
    apply Qinv_lt_0_compat. lra. }
  unfold Qdiv. split; intro Hx; nra.
Qed.

End TimeQ.

(** C2: for a positive speed, [speed_distance_to_time] returns
    distance / (effectiveSpeed * 24 / 668), where the effective speed is
    speed/4 for an aircraft and the speed otherwise; hence the time of an
    aircraft at speed s is the time of another vehicle at speed s/4. *)
Theorem C2_time_to_travel (speed distance : Q) (isAircraft : bool) :
  0 < speed ->
  speed_distance_to_time speed distance (PyBool isAircraft) =
    Ok (distance / ((if isAircraft then speed / 4 else speed) * 24 / 668))
  /\ speed_distance_to_time speed distance (PyBool true) =
       speed_distance_to_time (speed / 4) distance (PyBool false).
Proof.
  intro Hpos. split.
  - rewrite speed_distance_to_time_nonzero by lra.
    unfold tiles_per_day, effective_speed. reflexivity.
  - reflexivity.
Qed.

Lemma C2_time_to_travel_witness :
  speed_distance_to_time 100 100 (PyBool true) =
    Ok (100 / ((if true then 100 / 4 else 100) * 24 / 668))
  /\ speed_distance_to_time 100 100 (PyBool true) =
       speed_distance_to_time (100 / 4) 100 (PyBool false).
Proof.
  apply (@C2_time_to_travel 100 100 true). reflexivity.
Defined.

(** C5, as the code has it: there is no validation of the speed.  With a
    zero speed the last division raises [ZeroDivisionError], so no infinity
    is produced; with a negative speed the function returns
    distance / (effectiveSpeed * 24 / 668), which is negative for a positive
    distance. *)
Theorem C5_nonpositive_speed (speed distance : Q) (isAircraft : bool) :
  speed <= 0 ->
  (speed == 0
   /\ speed_distance_to_time speed distance (PyBool isAircraft) =
        Raise ZeroDivisionError)
  \/ (speed < 0
      /\ speed_distance_to_time speed distance (PyBool isAircraft) =
           Ok (distance / ((if isAircraft then speed / 4 else speed) * 24 / 668))
      /\ (0 <= distance ->
          distance / ((if isAircraft then speed / 4 else speed) * 24 / 668) <= 0)
      /\ (0 < distance ->
          distance / ((if isAircraft then speed / 4 else speed) * 24 / 668) < 0)).
Proof.
  intro Hle.
  destruct (Qlt_le_dec speed 0) as [Hneg|Hge].
  - right. split; [assumption|]. split.
    + rewrite speed_distance_to_time_nonzero by lra. reflexivity.
    + apply Qdiv_neg_divisor.
      exact (tiles_per_day_neg (PyBool isAircraft) Hneg).
  - left. assert (H0 : speed == 0) by lra.
    split; [assumption|]. apply speed_distance_to_time_zero. assumption.
Qed.

Lemma C5_nonpositive_speed_witness :
  (0 == 0
   /\ speed_distance_to_time 0 100 (PyBool false) = Raise ZeroDivisionError)
  \/ (0 < 0
      /\ speed_distance_to_time 0 100 (PyBool false) =
           Ok (100 / ((if false then 0 / 4 else 0) * 24 / 668))
      /\ (0 <= 100 -> 100 / ((if false then 0 / 4 else 0) * 24 / 668) <= 0)
      /\ (0 < 100 -> 100 / ((if false then 0 / 4 else 0) * 24 / 668) < 0)).
Proof.
  apply (@C5_nonpositive_speed 0 100 false). discriminate.
Defined.

(** C5 as stated fails: a negative speed is not rejected, the function
    returns a negative time. *)
Lemma C5_negative_speed_is_accepted :
  - (100) <= 0
  /\ speed_distance_to_time (- (100)) 100 (PyBool false) =
       Ok (100 / (- (100) * 24 / 668))
  /\ 100 / (- (100) * 24 / 668) < 0.
Proof.
  split; [discriminate|]. split; reflexivity.
Qed.

(** In the regime of the full bonus the income is proportional to the
    distance. *)
Lemma income_full_bonus (cargo : Cargo) (amount distance time : Q) :
  scaled_time time true <= inject_Z (days1_of cargo) ->
  income cargo amount distance time true =
    inject_Z (base_pay_of cargo) * amount * distance * 255 * (1 # 2097152).
Proof.
  intro H.
  rewrite (@income_unfold cargo amount distance time true 255
             (tbonus_full _ H)).
  reflexivity.
Qed.

(** C9: with the cargo, a non-negative amount and the speed fixed, if two
    distances d1 <= d2 both give a scaled time of at most [days1], the income
    at d2 is at least the income at d1; in this regime the bonus is 255 and
    the income is base_pay * amount * distance * 255 * 2^-21. *)
Theorem C9_income_monotone (cargo : Cargo) (amount speed : Q)
        (isAircraft : bool) (dist1 dist2 t1 t2 : Q) :
  0 <= amount ->
  dist1 <= dist2 ->
  speed_distance_to_time speed dist1 (PyBool isAircraft) = Ok t1 ->
  speed_distance_to_time speed dist2 (PyBool isAircraft) = Ok t2 ->
  scaled_time t1 true <= inject_Z (days1_of cargo) ->
  scaled_time t2 true <= inject_Z (days1_of cargo) ->
  income cargo amount dist1 t1 true <= income cargo amount dist2 t2 true
  /\ income cargo amount dist1 t1 true =
       inject_Z (base_pay_of cargo) * amount * dist1 * 255 * (1 # 2097152)
  /\ income cargo amount dist2 t2 true =
       inject_Z (base_pay_of cargo) * amount * dist2 * 255 * (1 # 2097152).
Proof.
  intros Hamount Hdist _ _ Ht1 Ht2.
  rewrite (@income_full_bonus cargo amount dist1 t1 Ht1).
  rewrite (@income_full_bonus cargo amount dist2 t2 Ht2).
  split; [|split; reflexivity].
  assert (Hbp : 0 <= inject_Z (base_pay_of cargo)).
  { replace 0 with (inject_Z 0) by reflexivity.
    rewrite <- Zle_Qle. pose proof (base_pay_pos cargo). lia. }
  assert (Hk : 0 <= inject_Z (base_pay_of cargo) * amount)
    by (apply Qmult_le_0_compat; assumption).
  apply Qmult_le_compat_r; [|discriminate].
  apply Qmult_le_compat_r; [|discriminate].
  rewrite (Qmult_comm _ dist1), (Qmult_comm _ dist2).
  apply Qmult_le_compat_r; assumption.
Qed.

Lemma C9_income_monotone_witness :
  income Coal 3 1 (1 / (1000 * 24 / 668)) true
    <= income Coal 3 2 (2 / (1000 * 24 / 668)) true
  /\ income Coal 3 1 (1 / (1000 * 24 / 668)) true =
       inject_Z (base_pay_of Coal) * 3 * 1 * 255 * (1 # 2097152)
  /\ income Coal 3 2 (2 / (1000 * 24 / 668)) true =
       inject_Z (base_pay_of Coal) * 3 * 2 * 255 * (1 # 2097152).
Proof.
  apply (@C9_income_monotone Coal 3 1000 false 1 2); try reflexivity;
    discriminate.
Defined.

(** ** The worked scenario: 100 tiles of passengers at 100 km/h *)

Section Scenario.

Local Open Scope Q_scope.

Lemma scenario_exact_values :
  scenario_time == 167 # 6
  /\ scenario_scaled == 835 # 12
  /\ scenario_tbonus == 839 # 6
  /\ scenario_income == 66805375 # 3145728.
Proof. repeat split. Qed.

End Scenario.

(** C7: Passengers are (3185, 0, 24); for amount 1, distance 100 and speed
    100, not an aircraft, [speed_distance_to_time] gives about 27.83 ingame
    days, the scaled time is about 69.58 and lies beyond days1 + days2 = 24,
    so the third case gives a time bonus of about 139.84 (exactly 839/6);
    the bonus is at least 31 and the income is 3185*1*100*tbonus*2^-21,
    about 21.2.  The binary64 run of the same code is finite and within a
    relative 1e-6 of this exact value. *)
Theorem C7_passengers_scenario :
  (value Passengers = (3185, 0, 24)%Z
   /\ speed_distance_to_time (T:=Q) 100 100 (PyBool false) = Ok scenario_time
   /\ Qabs (scenario_time - 27.83) < 0.01
   /\ Qabs (scenario_scaled - 69.58) < 0.01
   /\ inject_Z (0 + 24) < scenario_scaled
   /\ tbonus_spec 0 24 scenario_scaled scenario_tbonus
   /\ Qabs (scenario_tbonus - 139.84) < 0.01
   /\ 31 <= scenario_tbonus
   /\ income (T:=Q) Passengers 1 100 scenario_time true = scenario_income
   /\ Qabs (scenario_income - 21.2) < 0.05)%Q
  /\ exists (f : float) (q : Q),
       scenario_income_float = Ok f
       /\ Q_of_float f = Some q
       /\ (Qabs (q - scenario_income) <= 1e-6 * Qabs scenario_income)%Q.
Proof.
  split.
  - repeat match goal with |- _ /\ _ => split end;
      try reflexivity; try discriminate.
    apply tbonus_late.
    + intro H. vm_compute in H. apply H. reflexivity.
    + intros [_ H]. vm_compute in H. apply H. reflexivity.
  - eexists. eexists. split; [vm_compute; reflexivity|].
    split; [vm_compute; reflexivity|].
    vm_compute. discriminate.
Qed.

(** ** The sweep *)

Section Sweep.

Context {T : Type} {N : PyNumber T}.

Variable cargo : Cargo.
Variable is_aircraft : pyobj.

Lemma columns_eta (s : columns T) :
  {| speed_col := speed_col s; distance_col := distance_col s;
     time_col := time_col s; income_col := income_col s |} = s.
Proof. destruct s; reflexivity. Qed.

Lemma last_time_after_append (s : columns T) (x : T) :
  mbind (append_time x) (fun _ => last_time) s =
    Ok (x, {| speed_col := speed_col s; distance_col := distance_col s;
              time_col := time_col s ++ [x]; income_col := income_col s |}).
Proof.
  unfold mbind, append_time, last_time. cbn [time_col].
  rewrite rev_app_distr. reflexivity.
Qed.

(** The inner loop appends the times and incomes of one speed. *)
Lemma inner_loop_run (speeds : list T) (i : nat) (speed : T) (ds : list Z) :
  getitem speeds i = Ok speed ->
  forall s : columns T,
    for_each ds (inner_body cargo speeds i is_aircraft) s =
      match sweep_times is_aircraft speed ds with
      | Ok ts =>
          Ok (tt, {| speed_col := speed_col s;
                     distance_col := distance_col s;
                     time_col := time_col s ++ ts;
                     income_col := income_col s ++ sweep_incomes cargo ds ts |})
      | Raise e => Raise e
      end.
Proof.
  intro Hget. unfold sweep_times.
  induction ds as [|d ds IH]; intro s.
  - cbn. rewrite !app_nil_r, columns_eta. reflexivity.
  - cbn [for_each mapM]. unfold mbind at 1. unfold inner_body at 1.
    unfold mbind at 1. rewrite Hget. cbn [lift].
    unfold mbind at 1.
    destruct (speed_distance_to_time speed (of_Z d) is_aircraft) as [t|e];
      cbn [lift]; [|reflexivity].
    unfold mbind at 1, append_time at 1, mbind at 1, last_time at 1.
    cbn [time_col]. rewrite rev_app_distr. cbn [rev app].
    unfold append_income at 1.
    cbn [speed_col distance_col time_col income_col].
    rewrite IH.
    cbn [speed_col distance_col time_col income_col].
    destruct (mapM _ ds) as [ts|e]; [|reflexivity].
    unfold sweep_incomes. cbn [combine map fst snd].
    rewrite <- !app_assoc. reflexivity.
Qed.

(** One turn of the outer loop appends the block of its speed. *)
Lemma outer_body_run (lo hi : Z) (speeds : list T) (i : nat) (speed : T)
      (s : columns T) :
  getitem speeds i = Ok speed ->
  outer_body cargo (lo, hi) speeds is_aircraft i s =
    match sweep_times is_aircraft speed (range lo (hi + 1)) with
    | Ok ts => Ok (tt, add_block cargo s speed (range lo (hi + 1)) ts)
    | Raise e => Raise e
    end.
Proof.
  intro Hget. unfold outer_body.
  unfold mbind at 1. rewrite Hget. cbn [lift].
  unfold mbind at 1, extend_speed at 1.
  unfold mbind at 1, extend_distance at 1.
  cbn [speed_col distance_col time_col income_col].
  rewrite (@inner_loop_run speeds i speed (range lo (hi + 1)) Hget).
  reflexivity.
Qed.

Lemma getitem_middle (pre rest : list T) (x : T) :
  getitem (pre ++ x :: rest) (List.length pre) = Ok x.
Proof.
  unfold getitem. rewrite nth_error_app2 by lia.
  rewrite Nat.sub_diag. reflexivity.
Qed.

(** The outer loop, from any index on. *)
Lemma outer_loop_run (lo hi : Z) (rest : list T) :
  forall (pre : list T) (s : columns T),
    for_each (seq (List.length pre) (List.length rest))
             (outer_body cargo (lo, hi) (pre ++ rest) is_aircraft) s =
      match sweep cargo is_aircraft (range lo (hi + 1)) rest s with
      | Ok s' => Ok (tt, s')
      | Raise e => Raise e
      end.
Proof.
  induction rest as [|x rest IH]; intros pre s.
  - reflexivity.
  - cbn [List.length seq for_each sweep]. unfold mbind at 1.
    rewrite (@outer_body_run lo hi (pre ++ x :: rest) (List.length pre) x s
             (getitem_middle pre rest x)).
    destruct (sweep_times is_aircraft x (range lo (hi + 1))) as [ts|e]; [|reflexivity].
    specialize (IH (pre ++ [x])).
    rewrite <- app_assoc, length_app, Nat.add_comm in IH.
    exact (IH _).
Qed.

(** Lines 102-113 are the fold followed by the data frame. *)
Lemma populate_run (distance_bounds : Z * Z) (speeds : list T) :
  populate cargo distance_bounds speeds is_aircraft =
    match sweep cargo is_aircraft
                (range (fst distance_bounds) (snd distance_bounds + 1))
                speeds empty_columns with
    | Ok s => DataFrame s
    | Raise e => Raise e
    end.
Proof.
  destruct distance_bounds as [lo hi]. unfold populate.
  pose proof (outer_loop_run lo hi speeds [] empty_columns) as Hrun.
  cbn [List.length app] in Hrun. rewrite Hrun.
  cbn [fst snd].
  destruct (sweep _ _ _ speeds empty_columns); reflexivity.
Qed.

End Sweep.

Section SweepFacts.

Context {T : Type} {N : PyNumber T}.

Variable cargo : Cargo.
Variable is_aircraft : pyobj.

Lemma mapM_length {A B : Type} (f : A -> result B) (xs : list A) :
  forall ys, mapM f xs = Ok ys -> List.length ys = List.length xs.
Proof.
  induction xs as [|x xs IH]; intros ys H; cbn in H.
  - injection H as <-. reflexivity.
  - destruct (f x); [|discriminate].
    destruct (mapM f xs) as [zs|]; [|discriminate].
    injection H as <-. cbn. f_equal. apply IH. reflexivity.
Qed.

Lemma pydiv_raises (x y : T) (e : exn) :
  pydiv x y = Raise e -> e = ZeroDivisionError.
Proof.
  unfold pydiv. destruct (is_zero y); congruence.
Qed.

Lemma speed_distance_to_time_raises (speed distance : T) (e : exn) :
  speed_distance_to_time speed distance is_aircraft = Raise e ->
  e = ZeroDivisionError.
Proof. unfold speed_distance_to_time. apply pydiv_raises. Qed.

Lemma sweep_times_raises (speed : T) (ds : list Z) (e : exn) :
  sweep_times is_aircraft speed ds = Raise e -> e = ZeroDivisionError.
Proof.
  unfold sweep_times. induction ds as [|d ds IH]; cbn; [discriminate|].
  destruct (speed_distance_to_time speed (of_Z d) is_aircraft) eqn:E.
  - destruct (mapM _ ds); [discriminate|].
    intro H. apply IH. congruence.
  - intro H. injection H as <-.
    eapply speed_distance_to_time_raises. exact E.
Qed.

Lemma sweep_incomes_length (ds : list Z) (ts : list T) :
  List.length ts = List.length ds ->
  List.length (sweep_incomes cargo ds ts) = List.length ds.
Proof.
  intro H. unfold sweep_incomes.
  rewrite length_map, length_combine, H. apply Nat.min_id.
Qed.

Lemma add_block_aligned (s : columns T) (speed : T) (ds : list Z) (ts : list T) :
  aligned s -> List.length ts = List.length ds ->
  aligned (add_block cargo s speed ds ts).
Proof.
  intros (H1 & H2 & H3) Hts. unfold aligned, add_block.
  cbn [speed_col distance_col time_col income_col].
  rewrite !length_app, repeat_length, sweep_incomes_length by exact Hts.
  lia.
Qed.

Lemma zip_rows_app (sp : list T) (di : list Z) (ti inc : list T) :
  forall (sp' : list T) (di' : list Z) (ti' inc' : list T),
    List.length di = List.length sp ->
    List.length ti = List.length sp ->
    List.length inc = List.length sp ->
    zip_rows (sp ++ sp') (di ++ di') (ti ++ ti') (inc ++ inc') =
      zip_rows sp di ti inc ++ zip_rows sp' di' ti' inc'.
Proof.
  revert di ti inc.
  induction sp as [|x sp IH]; intros [|d di] [|t ti] [|r inc];
    cbn; intros; try discriminate; try reflexivity.
  f_equal. apply IH; lia.
Qed.

(** The rows of the block of one speed. *)
Lemma block_rows_ok (speeds : list T) (all : list Z) (speed : T) :
  In speed speeds ->
  forall (ds : list Z) (ts : list T),
    incl ds all ->
    sweep_times is_aircraft speed ds = Ok ts ->
    Forall (row_ok cargo is_aircraft speeds all)
           (zip_rows (repeat speed (List.length ds)) ds ts
                     (sweep_incomes cargo ds ts)).
Proof.
  intro Hin. unfold sweep_times, sweep_incomes.
  induction ds as [|d ds IH]; intros ts Hincl H; cbn in H.
  - injection H as <-. constructor.
  - destruct (speed_distance_to_time speed (of_Z d) is_aircraft) eqn:E;
      [|discriminate].
    destruct (mapM _ ds) as [ts'|] eqn:E'; [|discriminate].
    injection H as <-. cbn.
    constructor.
    + repeat split; cbn; auto. apply Hincl. left. reflexivity.
    + apply IH; [|reflexivity]. intros z Hz. apply Hincl. right. exact Hz.
Qed.

(** The fold keeps the columns aligned and every row as the loop body made
    it; the only exception it lets through is the division's. *)
Lemma sweep_spec (all : list T) (ds : list Z) (speeds : list T) :
  incl speeds all ->
  forall s : columns T,
    aligned s ->
    Forall (row_ok cargo is_aircraft all ds) (rows s) ->
    match sweep cargo is_aircraft ds speeds s with
    | Ok s' => aligned s' /\ Forall (row_ok cargo is_aircraft all ds) (rows s')
    | Raise e => e = ZeroDivisionError
    end.
Proof.
  induction speeds as [|x speeds IH]; intros Hincl s Hal Hrows; cbn.
  - split; assumption.
  - destruct (sweep_times is_aircraft x ds) as [ts|e] eqn:E.
    + pose proof (@mapM_length _ _ _ ds ts E) as Hlen.
      apply IH.
      * intros y Hy. apply Hincl. right. exact Hy.
      * apply add_block_aligned; assumption.
      * unfold rows, add_block.
        cbn [speed_col distance_col time_col income_col].
        destruct Hal as (H1 & H2 & H3).
        rewrite zip_rows_app by assumption.
        apply Forall_app. split; [exact Hrows|].
        apply block_rows_ok; [apply Hincl; left; reflexivity| |exact E].
        intros z Hz. exact Hz.
    + exact (@sweep_times_raises x ds e E).
Qed.

Lemma DataFrame_aligned (s : columns T) : aligned s -> DataFrame s = Ok s.
Proof.
  intros (H1 & H2 & H3). unfold DataFrame.
  rewrite H1, H2, H3, !Nat.eqb_refl. reflexivity.
Qed.

(** Lines 102-113 return a data frame whose rows are the loop body's, or
    raise the division's exception. *)
Lemma populate_spec (distance_bounds : Z * Z) (speeds : list T) :
  match populate cargo distance_bounds speeds is_aircraft with
  | Ok df =>
      aligned df
      /\ Forall (row_ok cargo is_aircraft speeds
                   (range (fst distance_bounds) (snd distance_bounds + 1)))
                (rows df)
  | Raise e => e = ZeroDivisionError
  end.
Proof.
  rewrite populate_run.
  pose proof (@sweep_spec speeds
                (range (fst distance_bounds) (snd distance_bounds + 1))
                speeds (incl_refl _) empty_columns) as H.
  destruct (sweep _ _ _ speeds empty_columns) as [s|e].
  - destruct H as [Hal Hrows].
    + repeat split.
    + constructor.
    + rewrite (@DataFrame_aligned s Hal). split; assumption.
  - apply H; [repeat split|constructor].
Qed.

End SweepFacts.

(** ** The series generator *)

(** With lists of one length the check passes and lines 102-113 run. *)
Lemma income_vs_distance_speed_equal_length {T : Type} {N : PyNumber T}
      (cargo : Cargo) (distance_bounds : Z * Z) (speeds : list T)
      (flags : list bool) :
  List.length speeds = List.length flags ->
  income_vs_distance_speed cargo distance_bounds speeds (PyList flags) =
    populate cargo distance_bounds speeds (PyList flags).
Proof.
  intro H. unfold income_vs_distance_speed. cbn [py_len bind].
  rewrite H, Nat.eqb_refl. reflexivity.
Qed.

(** Every row of a returned series has the time of its speed and distance
    with the whole list as the aircraft flag, that is, with a true flag. *)
Lemma series_rows {T : Type} {N : PyNumber T}
      (cargo : Cargo) (distance_bounds : Z * Z) (speeds : list T)
      (flags : list bool) (df : columns T) :
  income_vs_distance_speed cargo distance_bounds speeds (PyList flags) = Ok df ->
  Forall (fun r =>
            speed_distance_to_time (Speed r) (of_Z (Distance r)) (PyBool true)
              = Ok (Time r)
            /\ Income r = income cargo (of_Z 1) (of_Z (Distance r)) (Time r) true)
         (rows df).
Proof.
  unfold income_vs_distance_speed. cbn [py_len bind].
  destruct (Nat.eqb (List.length speeds) (List.length flags)) eqn:E;
    cbn [negb]; [|discriminate].
  intro H.
  pose proof (populate_spec cargo (PyList flags) distance_bounds speeds) as Hspec.
  rewrite H in Hspec. destruct Hspec as [_ Hrows].
  apply Nat.eqb_eq in E.
  eapply Forall_impl; [|exact Hrows].
  intros r (Hin & _ & Htime & Hinc). split; [|exact Hinc].
  destruct flags as [|b flags].
  - destruct speeds; [destruct Hin|discriminate E].
  - exact Htime.
Qed.

(** C6: when the two lists differ in length, [income_vs_distance_speed]
    raises its length exception and returns no data frame, hence no sample;
    when they have one length the check passes: the call is the run of the
    loops, which returns a data frame or raises the division's exception. *)
Theorem C6_length_precondition {T : Type} {N : PyNumber T}
        (cargo : Cargo) (distance_bounds : Z * Z) (speeds : list T)
        (flags : list bool) :
  (List.length speeds <> List.length flags ->
   income_vs_distance_speed cargo distance_bounds speeds (PyList flags) =
     Raise length_mismatch)
  /\ (List.length speeds = List.length flags ->
      income_vs_distance_speed cargo distance_bounds speeds (PyList flags) =
        populate cargo distance_bounds speeds (PyList flags)
      /\ income_vs_distance_speed cargo distance_bounds speeds (PyList flags) <>
           Raise length_mismatch).
Proof.
  split; intro H.
  - unfold income_vs_distance_speed. cbn [py_len bind].
    apply Nat.eqb_neq in H. rewrite H. reflexivity.
  - rewrite (income_vs_distance_speed_equal_length cargo distance_bounds _ _ H).
    split; [reflexivity|].
    pose proof (populate_spec cargo (PyList flags) distance_bounds speeds) as Hspec.
    destruct (populate cargo distance_bounds speeds (PyList flags)) as [df|e].
    + discriminate.
    + rewrite Hspec. discriminate.
Qed.

(** C10: the default of [is_aircraft] is the boolean [False], which has no
    length; a call that leaves the argument out raises [TypeError] at the
    length check, for every cargo, distance bounds and speeds, and so never
    returns a series. *)
Theorem C10_default_is_aircraft_raises {T : Type} {N : PyNumber T}
        (cargo : Cargo) (distance_bounds : option (Z * Z))
        (speeds : option (list T)) :
  default_is_aircraft = PyBool false
  /\ py_len default_is_aircraft = Raise TypeError
  /\ call_income_vs_distance_speed cargo distance_bounds speeds None =
       Raise TypeError.
Proof.
  split; [reflexivity|]. split; [reflexivity|].
  unfold call_income_vs_distance_speed, income_vs_distance_speed.
  cbn [default_is_aircraft py_len bind]. reflexivity.
Qed.

(** C4 at speeds [100] and flags [False], distance 100: the series has one
    sample, whose income is [income] of its own time, but whose time is that
    of an aircraft, four times the time of the pair's own flag. *)
Theorem C4_series_ignores_pair_flag :
  exists (t_series t_own : Q),
    income_vs_distance_speed (T:=Q) Passengers (100, 100)%Z [100%Q]
                             (PyList [false]) =
      Ok {| speed_col := [100%Q]; distance_col := [100%Z];
            time_col := [t_series];
            income_col := [income Passengers 1%Q 100%Q t_series true] |}
    /\ speed_distance_to_time 100%Q 100%Q (PyBool false) = Ok t_own
    /\ speed_distance_to_time 100%Q 100%Q (PyBool true) = Ok t_series
    /\ (t_series == 4 * t_own)%Q
    /\ ~ (t_series == t_own)%Q.
Proof.
  exists (100 / (100 / 4 * 24 / 668))%Q, (100 / (100 * 24 / 668))%Q.
  repeat split; try reflexivity.
  intro H. discriminate H.
Qed.

(** * Further properties of the time model *)

(** A returned time is the quotient by the tiles per day, and the speed was
    not zero. *)
Lemma speed_distance_to_time_Ok_inv (speed distance : Q) (aircraft : pyobj)
      (t : Q) :
  speed_distance_to_time speed distance aircraft = Ok t ->
  ~ speed == 0 /\ t = distance / tiles_per_day speed aircraft.
Proof.
  intro H.
  assert (Hs : ~ speed == 0).
  { intro H0. rewrite (speed_distance_to_time_zero distance aircraft H0) in H.
    discriminate H. }
  split; [exact Hs|].
  rewrite (speed_distance_to_time_nonzero distance aircraft Hs) in H.
  injection H as <-. reflexivity.
Qed.

Lemma tiles_per_day_nonzero (speed : Q) (aircraft : pyobj) :
  ~ speed == 0 -> ~ tiles_per_day speed aircraft == 0.
Proof.
  intros Hs H. rewrite tiles_per_day_sign in H.
  apply Qmult_integral in H. destruct H as [H|H]; [exact (Hs H)|].
  destruct (truthy aircraft); discriminate H.
Qed.

(** [speed_distance_to_time] raises exactly when the speed is zero, and then
    it raises [ZeroDivisionError], whatever object is passed as the aircraft
    flag. *)
Theorem time_raises_iff_zero_speed (speed distance : Q) (aircraft : pyobj)
        (e : exn) :
  speed_distance_to_time speed distance aircraft = Raise e
  <-> (speed == 0 /\ e = ZeroDivisionError).
Proof.
  split.
  - intro H. destruct (Qeq_dec speed 0) as [H0|Hn].
    + split; [exact H0|].
      rewrite (speed_distance_to_time_zero distance aircraft H0) in H.
      congruence.
    + rewrite (speed_distance_to_time_nonzero distance aircraft Hn) in H.
      discriminate H.
  - intros [H0 ->]. apply speed_distance_to_time_zero. exact H0.
Qed.

(** An aircraft takes four times as long as another vehicle of the same
    listed speed over the same distance. *)
Theorem time_aircraft_quadruple (speed distance t_air t_plain : Q) :
  speed_distance_to_time speed distance (PyBool true) = Ok t_air ->
  speed_distance_to_time speed distance (PyBool false) = Ok t_plain ->
  t_air == 4 * t_plain.
Proof.
  intros Ha Hp.
  apply speed_distance_to_time_Ok_inv in Ha. destruct Ha as [Hs ->].
  apply speed_distance_to_time_Ok_inv in Hp. destruct Hp as [_ ->].
  unfold tiles_per_day, effective_speed. cbn [truthy].
  field. exact Hs.
Qed.

Lemma time_aircraft_quadruple_witness :
  100 / (100 / 4 * 24 / 668) == 4 * (100 / (100 * 24 / 668)).
Proof.
  apply (@time_aircraft_quadruple 100 100); reflexivity.
Defined.

(** The time is inversely proportional to the speed: at k times the speed
    the trip takes the k-th part of the time. *)
Theorem time_inverse_in_speed (k speed distance : Q) (aircraft : pyobj)
        (t : Q) :
  ~ k == 0 ->
  speed_distance_to_time speed distance aircraft = Ok t ->
  exists t',
    speed_distance_to_time (k * speed) distance aircraft = Ok t'
    /\ t' == t / k.
Proof.
  intros Hk H.
  apply speed_distance_to_time_Ok_inv in H. destruct H as [Hs ->].
  assert (Hks : ~ k * speed == 0).
  { intro H. apply Qmult_integral in H. tauto. }
  eexists. split.
  - apply speed_distance_to_time_nonzero. exact Hks.
  - unfold tiles_per_day, effective_speed.
    destruct (truthy aircraft); field; tauto.
Qed.

Lemma time_inverse_in_speed_witness :
  exists t',
    speed_distance_to_time (2 * 100) 100 (PyBool false) = Ok t'
    /\ t' == 100 / (100 * 24 / 668) / 2.
Proof.
  apply (@time_inverse_in_speed 2 100 100 (PyBool false)).
  - discriminate.
  - reflexivity.
Defined.

(** The time is additive in the distance, and no distance takes no time. *)
Theorem time_additive_in_distance (speed dist1 dist2 : Q) (aircraft : pyobj)
        (t1 t2 : Q) :
  speed_distance_to_time speed dist1 aircraft = Ok t1 ->
  speed_distance_to_time speed dist2 aircraft = Ok t2 ->
  (exists t,
      speed_distance_to_time speed (dist1 + dist2) aircraft = Ok t
      /\ t == t1 + t2)
  /\ (exists t0,
         speed_distance_to_time speed 0 aircraft = Ok t0 /\ t0 == 0).
Proof.
  intros H1 H2.
  apply speed_distance_to_time_Ok_inv in H1. destruct H1 as [Hs ->].
  apply speed_distance_to_time_Ok_inv in H2. destruct H2 as [_ ->].
  pose proof (@tiles_per_day_nonzero speed aircraft Hs) as Hn.
  split; eexists; (split; [apply speed_distance_to_time_nonzero; exact Hs|]);
    field; exact Hn.
Qed.

Lemma time_additive_in_distance_witness :
  (exists t,
      speed_distance_to_time 100 (30 + 70) (PyBool false) = Ok t
      /\ t == 30 / (100 * 24 / 668) + 70 / (100 * 24 / 668))
  /\ (exists t0,
         speed_distance_to_time 100 0 (PyBool false) = Ok t0 /\ t0 == 0).
Proof.
  apply (@time_additive_in_distance 100 30 70 (PyBool false)); reflexivity.
Defined.

(** Distance is time times speed: multiplying a returned time by the tiles
    per day gives the distance back. *)
Theorem time_times_speed_is_distance (speed distance : Q) (aircraft : pyobj)
        (t : Q) :
  speed_distance_to_time speed distance aircraft = Ok t ->
  t * (effective_speed speed aircraft * 24 / 668) == distance.
Proof.
  intro H.
  apply speed_distance_to_time_Ok_inv in H. destruct H as [Hs ->].
  pose proof (@tiles_per_day_nonzero speed aircraft Hs) as Hn.
  fold (tiles_per_day speed aircraft).
  field. exact Hn.
Qed.

Lemma time_times_speed_is_distance_witness :
  100 / (100 * 24 / 668) * (effective_speed 100 (PyBool false) * 24 / 668)
  == 100.
Proof.
  apply (@time_times_speed_is_distance 100 100 (PyBool false)). reflexivity.
Defined.

(** With a positive speed the time is non-negative for a non-negative
    distance, grows with the distance and shrinks with the speed. *)
Theorem time_monotone (speed speed' dist1 dist2 : Q) (aircraft : pyobj)
        (t1 t2 t' : Q) :
  0 < speed -> speed <= speed' ->
  0 <= dist1 -> dist1 <= dist2 ->
  speed_distance_to_time speed dist1 aircraft = Ok t1 ->
  speed_distance_to_time speed dist2 aircraft = Ok t2 ->
  speed_distance_to_time speed' dist2 aircraft = Ok t' ->
  0 <= t1 /\ t1 <= t2 /\ t' <= t2.
Proof.
  intros Hs Hss Hd Hdd H1 H2 H'.
  apply speed_distance_to_time_Ok_inv in H1. destruct H1 as [_ ->].
  apply speed_distance_to_time_Ok_inv in H2. destruct H2 as [_ ->].
  apply speed_distance_to_time_Ok_inv in H'. destruct H' as [_ ->].
  pose proof (tiles_per_day_pos aircraft Hs) as Hp.
  assert (Hs' : 0 < speed') by lra.
  pose proof (tiles_per_day_pos aircraft Hs') as Hp'.
  assert (Hle : tiles_per_day speed aircraft <= tiles_per_day speed' aircraft).
  { rewrite !tiles_per_day_sign. destruct (truthy aircraft); lra. }
  pose proof (Qinv_lt_0_compat _ Hp) as Hi.
  pose proof (Qinv_lt_0_compat _ Hp') as Hi'.
  unfold Qdiv. repeat split.
  - apply Qmult_le_0_compat; lra.
  - apply Qmult_le_compat_r; lra.
  - assert (Hinv : / tiles_per_day speed' aircraft
                   <= / tiles_per_day speed aircraft).
    { apply Qle_shift_inv_l; [exact Hp|].
      setoid_replace (/ tiles_per_day speed' aircraft * tiles_per_day speed aircraft)
        with (tiles_per_day speed aircraft / tiles_per_day speed' aircraft)
        by (field; lra).
      apply Qle_shift_div_r; lra. }
    rewrite (Qmult_comm dist2 (/ tiles_per_day speed' aircraft)).
    rewrite (Qmult_comm dist2 (/ tiles_per_day speed aircraft)).
    apply Qmult_le_compat_r; lra.
Qed.

Lemma time_monotone_witness :
  0 <= 30 / (100 * 24 / 668)
  /\ 30 / (100 * 24 / 668) <= 70 / (100 * 24 / 668)
  /\ 70 / (200 * 24 / 668) <= 70 / (100 * 24 / 668).
Proof.
  apply (@time_monotone 100 200 30 70 (PyBool false)); try reflexivity;
    discriminate.
Defined.

(** * Further properties of the income formula *)

Lemma base_pay_Qpos (cargo : Cargo) : 0 < inject_Z (base_pay_of cargo).
Proof.
  replace 0 with (inject_Z 0) by reflexivity.
  rewrite <- Zlt_Qlt. apply base_pay_pos.
Qed.

Lemma days2_Qnonneg (cargo : Cargo) : 0 <= inject_Z (days2_of cargo).
Proof.
  replace 0 with (inject_Z 0) by reflexivity.
  rewrite <- Zle_Qle. apply days2_nonneg.
Qed.

(** The two outcomes of [income], with the time bonus that decides. *)
Lemma income_cases (cargo : Cargo) (amount distance time : Q)
      (ingametime : bool) :
  exists tb,
    tbonus_spec (days1_of cargo) (days2_of cargo)
                (scaled_time time ingametime) tb
    /\ ((tb < 31
         /\ income cargo amount distance time ingametime =
              inject_Z (base_pay_of cargo) * amount * 31 * (1 # 2097152))
        \/ (31 <= tb
            /\ income cargo amount distance time ingametime =
                 inject_Z (base_pay_of cargo) * amount * distance * tb
                 * (1 # 2097152))).
Proof.
  destruct (tbonus_spec_total cargo (scaled_time time ingametime)) as [tb Hspec].
  exists tb. split; [exact Hspec|].
  rewrite (@income_unfold cargo amount distance time ingametime tb Hspec).
  destruct (Qlt_bool tb 31) eqn:E; q_reflect; [left|right]; split;
    try reflexivity; assumption.
Qed.

(** The time bonus never exceeds 255 and never grows with the time. *)
Lemma tbonus_le_255 (cargo : Cargo) (ts tb : Q) :
  tbonus_spec (days1_of cargo) (days2_of cargo) ts tb -> tb <= 255.
Proof.
  pose proof (days2_Qnonneg cargo) as H2.
  intro H. destruct H as [H|H H'|H H']; lra.
Qed.

Lemma tbonus_antitone (cargo : Cargo) (ts ts' tb tb' : Q) :
  tbonus_spec (days1_of cargo) (days2_of cargo) ts tb ->
  tbonus_spec (days1_of cargo) (days2_of cargo) ts' tb' ->
  ts <= ts' -> tb' <= tb.
Proof.
  pose proof (days2_Qnonneg cargo) as H2.
  intros H H' Hle.
  assert (Hlate : forall x,
             ~ x <= inject_Z (days1_of cargo) ->
             ~ (inject_Z (days1_of cargo) < x
                /\ x <= inject_Z (days1_of cargo) + inject_Z (days2_of cargo)) ->
             inject_Z (days1_of cargo) + inject_Z (days2_of cargo) < x).
  { intros x Hx Hx'. apply Qnot_le_lt. intro Hc. apply Hx'.
    split; [apply Qnot_le_lt; exact Hx|exact Hc]. }
  destruct H as [Ha|Ha Hb|Ha Hb]; destruct H' as [Ha'|Ha' Hb'|Ha' Hb'];
    try (pose proof (Hlate _ Ha Hb)); try (pose proof (Hlate _ Ha' Hb'));
    lra.
Qed.

Lemma scaled_time_monotone (t t' : Q) (ingametime : bool) :
  t <= t' -> scaled_time t ingametime <= scaled_time t' ingametime.
Proof.
  intro H. unfold scaled_time. destruct ingametime; lra.
Qed.

(** A non-negative amount over a non-negative distance never yields a
    negative income, whatever the time and the unit flag. *)
Theorem income_nonneg (cargo : Cargo) (amount distance time : Q)
        (ingametime : bool) :
  0 <= amount -> 0 <= distance ->
  0 <= income cargo amount distance time ingametime.
Proof.
  intros Ha Hd.
  pose proof (base_pay_Qpos cargo) as Hbp.
  destruct (income_cases cargo amount distance time ingametime)
    as (tb & _ & [[_ ->]|[Htb ->]]).
  - repeat apply Qmult_le_0_compat; try lra; discriminate.
  - repeat apply Qmult_le_0_compat; try lra; discriminate.
Qed.

Lemma income_nonneg_witness : 0 <= income Coal 3 10 200 true.
Proof.
  apply (@income_nonneg Coal 3 10 200 true); discriminate.
Defined.

(** The income is proportional to the amount: k times the cargo pays k times
    the income of the same trip. *)
Theorem income_linear_in_amount (cargo : Cargo) (k amount distance time : Q)
        (ingametime : bool) :
  income cargo (k * amount) distance time ingametime
  == k * income cargo amount distance time ingametime.
Proof.
  destruct (tbonus_spec_total cargo (scaled_time time ingametime)) as [tb Hspec].
  rewrite (@income_unfold cargo (k * amount) distance time ingametime tb Hspec).
  rewrite (@income_unfold cargo amount distance time ingametime tb Hspec).
  destruct (Qlt_bool tb 31); ring.
Qed.

(** For a trip of at least one tile the income at the full bonus of 255 is
    the most the trip can pay. *)
Theorem income_le_full_bonus (cargo : Cargo) (amount distance time : Q)
        (ingametime : bool) :
  0 <= amount -> 1 <= distance ->
  income cargo amount distance time ingametime
  <= inject_Z (base_pay_of cargo) * amount * distance * 255 * (1 # 2097152).
Proof.
  intros Ha Hd.
  pose proof (base_pay_Qpos cargo) as Hbp.
  assert (Hk : 0 <= inject_Z (base_pay_of cargo) * amount)
    by (apply Qmult_le_0_compat; lra).
  destruct (income_cases cargo amount distance time ingametime)
    as (tb & Hspec & [[_ ->]|[Htb ->]]).
  - apply Qmult_le_compat_r; [|discriminate].
    set (K := inject_Z (base_pay_of cargo) * amount) in *.
    assert (0 <= K * (255 * distance - 31))
      by (apply Qmult_le_0_compat; lra).
    lra.
  - pose proof (@tbonus_le_255 cargo _ tb Hspec) as H255.
    apply Qmult_le_compat_r; [|discriminate].
    assert (Hkd : 0 <= inject_Z (base_pay_of cargo) * amount * distance)
      by (apply Qmult_le_0_compat; lra).
    set (K := inject_Z (base_pay_of cargo) * amount * distance) in *.
    assert (0 <= K * (255 - tb)) by (apply Qmult_le_0_compat; lra).
    lra.
Qed.

Lemma income_le_full_bonus_witness :
  income Coal 3 10 200 true
  <= inject_Z (base_pay_of Coal) * 3 * 10 * 255 * (1 # 2097152).
Proof.
  apply (@income_le_full_bonus Coal 3 10 200 true); discriminate.
Defined.

(** For a trip of at least one tile a later delivery never pays more: the
    income does not grow with the time. *)
Theorem income_antitone_in_time (cargo : Cargo) (amount distance t t' : Q)
        (ingametime : bool) :
  0 <= amount -> 1 <= distance -> t <= t' ->
  income cargo amount distance t' ingametime
  <= income cargo amount distance t ingametime.
Proof.
  intros Ha Hd Ht.
  pose proof (base_pay_Qpos cargo) as Hbp.
  pose proof (scaled_time_monotone ingametime Ht) as Hs.
  assert (Hk : 0 <= inject_Z (base_pay_of cargo) * amount)
    by (apply Qmult_le_0_compat; lra).
  destruct (income_cases cargo amount distance t ingametime)
    as (tb & Hspec & Hcase).
  destruct (income_cases cargo amount distance t' ingametime)
    as (tb' & Hspec' & Hcase').
  pose proof (@tbonus_antitone cargo _ _ tb tb' Hspec Hspec' Hs) as Hanti.
  set (K := inject_Z (base_pay_of cargo) * amount) in *.
  destruct Hcase as [[Hlt ->]|[Hge ->]]; destruct Hcase' as [[Hlt' ->]|[Hge' ->]];
    fold K.
  - apply Qle_refl.
  - exfalso. lra.
  - apply Qmult_le_compat_r; [|discriminate].
    assert (0 <= K * (distance * tb - 31)).
    { apply Qmult_le_0_compat; [exact Hk|].
      assert (0 <= (distance - 1) * tb) by (apply Qmult_le_0_compat; lra).
      lra. }
    lra.
  - apply Qmult_le_compat_r; [|discriminate].
    assert (Hkd : 0 <= K * distance) by (apply Qmult_le_0_compat; lra).
    assert (0 <= K * distance * (tb - tb')) by (apply Qmult_le_0_compat; lra).
    lra.
Qed.

Lemma income_antitone_in_time_witness :
  income Coal 3 10 200 true <= income Coal 3 10 20 true.
Proof.
  apply (@income_antitone_in_time Coal 3 10 20 200 true); discriminate.
Defined.

(** Below one tile the floor turns the order around: when a trip is so short
    that distance * bonus is under 31, delivering it late enough for the
    floor pays strictly more than delivering it in time. *)
Theorem income_floor_exceeds_short_trip (cargo : Cargo)
        (amount distance t t' : Q) (ingametime : bool) (tb tb' : Q) :
  0 < amount ->
  tbonus_spec (days1_of cargo) (days2_of cargo) (scaled_time t ingametime) tb ->
  tbonus_spec (days1_of cargo) (days2_of cargo) (scaled_time t' ingametime) tb' ->
  31 <= tb -> tb' < 31 -> distance * tb < 31 ->
  income cargo amount distance t ingametime
  < income cargo amount distance t' ingametime.
Proof.
  intros Ha Hspec Hspec' Hge Hlt Hshort.
  pose proof (base_pay_Qpos cargo) as Hbp.
  rewrite (@income_unfold cargo amount distance t ingametime tb Hspec).
  rewrite (@income_unfold cargo amount distance t' ingametime tb' Hspec').
  destruct (Qlt_bool tb 31) eqn:E; q_reflect; [exfalso; lra|].
  destruct (Qlt_bool tb' 31) eqn:E'; q_reflect; [|exfalso; lra].
  assert (Hk : 0 < inject_Z (base_pay_of cargo) * amount)
    by (apply Qmult_lt_0_compat; assumption).
  set (K := inject_Z (base_pay_of cargo) * amount) in *.
  apply Qmult_lt_compat_r; [reflexivity|].
  assert (0 < K * (31 - distance * tb)) by (apply Qmult_lt_0_compat; lra).
  lra.
Qed.

Lemma income_floor_exceeds_short_trip_witness :
  income Passengers 1 0 0 true < income Passengers 1 0 200 true.
Proof.
  apply (@income_floor_exceeds_short_trip Passengers 1 0 0 200 true 255
           (255 - 2 * (scaled_time 200 true - inject_Z (days1_of Passengers))
            + inject_Z (days2_of Passengers))).
  - reflexivity.
  - apply tbonus_full. discriminate.
  - exact (proj1 tbonus_negative).
  - discriminate.
  - reflexivity.
  - reflexivity.
Defined.

(** The floor applies exactly beyond [floor_threshold]: a scaled time above
    it pays base_pay * amount * 31 * 2^-21, and a scaled time up to it pays
    by the distance with a bonus of at least 31. *)
Theorem income_floor_threshold (cargo : Cargo) (amount distance time : Q)
        (ingametime : bool) :
  (floor_threshold cargo < scaled_time time ingametime ->
   income cargo amount distance time ingametime =
     inject_Z (base_pay_of cargo) * amount * 31 * (1 # 2097152))
  /\ (scaled_time time ingametime <= floor_threshold cargo ->
      exists tb,
        tbonus_spec (days1_of cargo) (days2_of cargo)
                    (scaled_time time ingametime) tb
        /\ 31 <= tb
        /\ income cargo amount distance time ingametime =
             inject_Z (base_pay_of cargo) * amount * distance * tb
             * (1 # 2097152)).
Proof.
  pose proof (days2_Qnonneg cargo) as H2.
  destruct (income_cases cargo amount distance time ingametime)
    as (tb & Hspec & Hcase).
  set (ts := scaled_time time ingametime) in *.
  assert (Hiff : tb < 31 <-> floor_threshold cargo < ts).
  { unfold floor_threshold.
    destruct (Z.leb_spec (days2_of cargo) 224) as [Hz|Hz].
    - assert (inject_Z (days2_of cargo) <= 224).
      { replace 224 with (inject_Z 224) by reflexivity.
        rewrite <- Zle_Qle. exact Hz. }
      setoid_replace ((224 + inject_Z (days2_of cargo)) / 2)
        with ((224 + inject_Z (days2_of cargo)) * (1 # 2)) by field.
      destruct Hspec as [Ha|Ha Hb|Ha Hb]; split; intro; lra.
    - assert (224 < inject_Z (days2_of cargo)).
      { replace 224 with (inject_Z 224) by reflexivity.
        rewrite <- Zlt_Qlt. exact Hz. }
      destruct Hspec as [Ha|Ha Hb|Ha Hb]; split; intro; lra. }
  split; intro H.
  - destruct Hcase as [[_ ->]|[Hge _]]; [reflexivity|].
    apply Hiff in H. exfalso. lra.
  - exists tb. split; [exact Hspec|].
    destruct Hcase as [[Hlt _]|[Hge ->]].
    + apply Hiff in Hlt. exfalso. lra.
    + split; [exact Hge|reflexivity].
Qed.

Lemma tbonus_spec_compat (days1 days2 : Z) (ts ts' tb : Q) :
  ts == ts' ->
  tbonus_spec days1 days2 ts tb ->
  exists tb', tbonus_spec days1 days2 ts' tb' /\ tb' == tb.
Proof.
  intros Heq H. destruct H as [Ha|Ha Hb|Ha Hb].
  - exists 255. split; [apply tbonus_full; lra|reflexivity].
  - exists (255 - (ts' - inject_Z days1)).
    split; [apply tbonus_decay; lra|lra].
  - exists (255 - 2 * (ts' - inject_Z days1) + inject_Z days2).
    split; [|lra].
    apply tbonus_late.
    + intro H. apply Ha. lra.
    + intros [H H']. apply Hb. split; lra.
Qed.

(** The unit flag only changes the unit: a time given in the formula's own
    unit with the flag off pays what the same time in ingame days, that is
    divided by 2.5, pays with the flag on. *)
Theorem income_flag_is_unit_change (cargo : Cargo) (amount distance time : Q) :
  income cargo amount distance time false
  == income cargo amount distance (time / (5 # 2)) true.
Proof.
  destruct (tbonus_spec_total cargo (scaled_time time false)) as [tb Hspec].
  assert (Heq : scaled_time time false == scaled_time (time / (5 # 2)) true).
  { unfold scaled_time. field. }
  destruct (tbonus_spec_compat Heq Hspec) as (tb' & Hspec' & Htb).
  rewrite (@income_unfold cargo amount distance time false tb Hspec).
  rewrite (@income_unfold cargo amount distance (time / (5 # 2)) true tb' Hspec').
  destruct (Qlt_bool tb 31) eqn:E; destruct (Qlt_bool tb' 31) eqn:E';
    q_reflect; try (exfalso; lra).
  - reflexivity.
  - rewrite Htb. reflexivity.
Qed.

(** * Further properties of the series generator *)

Lemma range_length (start stop : Z) :
  List.length (range start stop) = Z.to_nat (stop - start).
Proof. unfold range. rewrite length_map, length_seq. reflexivity. Qed.

Lemma range_In (start stop d : Z) :
  In d (range start stop) <-> (start <= d < stop)%Z.
Proof.
  unfold range. rewrite in_map_iff. split.
  - intros (k & <- & Hk). apply in_seq in Hk. lia.
  - intro H. exists (Z.to_nat (d - start)). split; [lia|].
    apply in_seq. lia.
Qed.

Lemma range_empty (start stop : Z) : (stop <= start)%Z -> range start stop = [].
Proof.
  intro H. unfold range.
  replace (Z.to_nat (stop - start)) with 0%nat by lia. reflexivity.
Qed.

Lemma zip_rows_length {T : Type} (sp : list T) :
  forall (di : list Z) (ti inc : list T),
    List.length di = List.length sp ->
    List.length ti = List.length sp ->
    List.length inc = List.length sp ->
    List.length (zip_rows sp di ti inc) = List.length sp.
Proof.
  induction sp as [|x sp IH]; intros [|d di] [|t ti] [|r inc]; cbn;
    intros; try discriminate; try reflexivity.
  f_equal. apply IH; lia.
Qed.

Lemma grouped_speeds_length {T : Type} (speeds : list T) (n : nat) :
  List.length (grouped_speeds speeds n) = (List.length speeds * n)%nat.
Proof.
  unfold grouped_speeds. induction speeds as [|x speeds IH]; cbn.
  - reflexivity.
  - rewrite length_app, repeat_length, IH. reflexivity.
Qed.

Section SeriesShape.

Context {T : Type} {N : PyNumber T}.

Variable cargo : Cargo.
Variable is_aircraft : pyobj.

(** The fold appends the grouped speeds and distances. *)
Lemma sweep_columns (ds : list Z) (speeds : list T) :
  forall s s' : columns T,
    sweep cargo is_aircraft ds speeds s = Ok s' ->
    speed_col s' = speed_col s ++ grouped_speeds speeds (List.length ds)
    /\ distance_col s' = distance_col s ++ grouped_distances speeds ds.
Proof.
  induction speeds as [|x speeds IH]; intros s s' H; cbn in H.
  - injection H as <-. cbn. rewrite !app_nil_r. split; reflexivity.
  - destruct (sweep_times is_aircraft x ds) as [ts|e]; [|discriminate].
    apply IH in H. destruct H as [H1 H2].
    rewrite H1, H2. unfold add_block. cbn.
    rewrite <- !app_assoc. split; reflexivity.
Qed.

(** Without distances the fold changes nothing, whatever the speeds. *)
Lemma sweep_no_distance (speeds : list T) (s : columns T) :
  sweep cargo is_aircraft [] speeds s = Ok s.
Proof.
  revert s. induction speeds as [|x speeds IH]; intro s; cbn.
  - reflexivity.
  - rewrite IH. unfold add_block, sweep_incomes. cbn.
    rewrite !app_nil_r. destruct s. reflexivity.
Qed.

End SeriesShape.

(** A returned series is grouped by speed in the order given and, within a
    speed, runs through the distances lo, ..., hi in ascending order: the
    speed column repeats every speed once per distance, the distance column
    repeats the range once per speed, and there are
    len(speeds) * (hi + 1 - lo) rows. *)
Theorem series_shape {T : Type} {N : PyNumber T}
        (cargo : Cargo) (lo hi : Z) (speeds : list T) (flags : list bool)
        (df : columns T) :
  income_vs_distance_speed cargo (lo, hi) speeds (PyList flags) = Ok df ->
  speed_col df = grouped_speeds speeds (Z.to_nat (hi + 1 - lo))
  /\ distance_col df = grouped_distances speeds (range lo (hi + 1))
  /\ List.length (rows df) = (List.length speeds * Z.to_nat (hi + 1 - lo))%nat
  /\ List.length (time_col df) = List.length (rows df)
  /\ List.length (income_col df) = List.length (rows df).
Proof.
  intro H.
  unfold income_vs_distance_speed in H. cbn [py_len bind] in H.
  destruct (negb _); [discriminate|].
  pose proof (populate_spec cargo (PyList flags) (lo, hi) speeds) as Hspec.
  rewrite H in Hspec. destruct Hspec as [(H1 & H2 & H3) _].
  rewrite populate_run in H. cbn [fst snd] in H.
  destruct (sweep cargo (PyList flags) (range lo (hi + 1)) speeds empty_columns)
    as [s|e] eqn:E; [|discriminate].
  destruct (@sweep_columns T N cargo (PyList flags) (range lo (hi + 1)) speeds
              empty_columns s E) as [Hs Hd].
  cbn in Hs, Hd.
  unfold DataFrame in H. destruct (_ && _)%bool; [|discriminate].
  injection H as <-.
  rewrite range_length in Hs.
  assert (Hrows : List.length (rows s) = List.length (speed_col s))
    by (apply zip_rows_length; assumption).
  rewrite Hrows, H2, H3.
  repeat split; try assumption.
  rewrite Hs. apply grouped_speeds_length.
Qed.

Lemma series_shape_witness :
  speed_col {| speed_col := [100; 100]; distance_col := [3%Z; 4%Z];
               time_col := [3 / (100 / 4 * 24 / 668); 4 / (100 / 4 * 24 / 668)];
               income_col := [income Coal 1 3 (3 / (100 / 4 * 24 / 668)) true;
                              income Coal 1 4 (4 / (100 / 4 * 24 / 668)) true] |}
  = grouped_speeds [100] (Z.to_nat (4 + 1 - 3))
  /\ [3%Z; 4%Z] = grouped_distances [100] (range 3 (4 + 1))
  /\ 2%nat = (1 * Z.to_nat (4 + 1 - 3))%nat
  /\ 2%nat = 2%nat
  /\ 2%nat = 2%nat.
Proof.
  apply (@series_shape Q _ Coal 3 4 [100] [true]). reflexivity.
Defined.

(** The exceptions of [income_vs_distance_speed]: a boolean flag, true or
    false, always raises [TypeError]; with a list of flags the only
    exceptions are the one of the length check, when the lengths differ, and
    [ZeroDivisionError], when they agree.  No index is ever out of range and
    the data frame never rejects the columns. *)
Theorem series_exceptions {T : Type} {N : PyNumber T}
        (cargo : Cargo) (distance_bounds : Z * Z) (speeds : list T) :
  (forall b : bool,
      income_vs_distance_speed cargo distance_bounds speeds (PyBool b) =
        Raise TypeError)
  /\ (forall (flags : list bool) (e : exn),
         income_vs_distance_speed cargo distance_bounds speeds (PyList flags) =
           Raise e ->
         (e = length_mismatch /\ List.length speeds <> List.length flags)
         \/ (e = ZeroDivisionError /\ List.length speeds = List.length flags)).
Proof.
  split.
  - intro b. reflexivity.
  - intros flags e H.
    unfold income_vs_distance_speed in H. cbn [py_len bind] in H.
    destruct (Nat.eqb (List.length speeds) (List.length flags)) eqn:E;
      cbn [negb] in H.
    + right. apply Nat.eqb_eq in E. split; [|exact E].
      pose proof (populate_spec cargo (PyList flags) distance_bounds speeds)
        as Hspec.
      rewrite H in Hspec. exact Hspec.
    + left. apply Nat.eqb_neq in E. split; [|exact E].
      injection H as <-. reflexivity.
Qed.

(** A sweep without distances (hi below lo) or without speeds returns the
    empty data frame when the lengths agree, even if a speed is zero. *)
Theorem series_empty {T : Type} {N : PyNumber T}
        (cargo : Cargo) (lo hi : Z) (speeds : list T) (flags : list bool) :
  List.length speeds = List.length flags ->
  (hi < lo)%Z \/ speeds = [] ->
  income_vs_distance_speed cargo (lo, hi) speeds (PyList flags) =
    Ok empty_columns.
Proof.
  intros Hlen Hempty.
  rewrite (income_vs_distance_speed_equal_length cargo (lo, hi) _ _ Hlen).
  rewrite populate_run. cbn [fst snd].
  destruct Hempty as [Hlt| ->].
  - rewrite range_empty by lia. rewrite sweep_no_distance. reflexivity.
  - reflexivity.
Qed.

Lemma series_empty_witness :
  income_vs_distance_speed (T:=Q) Coal (5, 4)%Z [0; 100] (PyList [true; false])
  = Ok empty_columns.
Proof.
  apply (@series_empty Q _ Coal 5 4 [0; 100] [true; false]).
  - reflexivity.
  - left. reflexivity.
Defined.

(** The rows of a returned series are the loop body's, and the lengths of
    the two lists agreed. *)
Lemma series_rows_ok {T : Type} {N : PyNumber T}
      (cargo : Cargo) (lo hi : Z) (speeds : list T) (flags : list bool)
      (df : columns T) :
  income_vs_distance_speed cargo (lo, hi) speeds (PyList flags) = Ok df ->
  List.length speeds = List.length flags
  /\ Forall (row_ok cargo (PyList flags) speeds (range lo (hi + 1))) (rows df).
Proof.
  intro H.
  unfold income_vs_distance_speed in H. cbn [py_len bind] in H.
  destruct (Nat.eqb (List.length speeds) (List.length flags)) eqn:E;
    cbn [negb] in H; [|discriminate].
  apply Nat.eqb_eq in E. split; [exact E|].
  pose proof (populate_spec cargo (PyList flags) (lo, hi) speeds) as Hspec.
  rewrite H in Hspec. destruct Hspec as [_ Hrows]. exact Hrows.
Qed.

(** Every sample of a returned series carries one of the given speeds and a
    distance between lo and hi; its time is that of its speed and distance
    with a true aircraft flag, whatever the flags in the list, and its income
    is that of one unit of cargo over its distance and time in ingame days. *)
Theorem series_samples {T : Type} {N : PyNumber T}
        (cargo : Cargo) (lo hi : Z) (speeds : list T) (flags : list bool)
        (df : columns T) :
  income_vs_distance_speed cargo (lo, hi) speeds (PyList flags) = Ok df ->
  Forall (fun r =>
            In (Speed r) speeds
            /\ (lo <= Distance r <= hi)%Z
            /\ speed_distance_to_time (Speed r) (of_Z (Distance r)) (PyBool true)
               = Ok (Time r)
            /\ Income r = income cargo (of_Z 1) (of_Z (Distance r)) (Time r) true)
         (rows df).
Proof.
  intro H.
  destruct (series_rows_ok cargo lo hi speeds flags H) as [E Hrows].
  eapply Forall_impl; [|exact Hrows].
  intros r (Hin & Hd & Htime & Hinc).
  apply range_In in Hd.
  repeat split; try assumption; try lia.
  destruct flags as [|b flags]; [|exact Htime].
  destruct speeds; [destruct Hin|discriminate E].
Qed.

Lemma series_samples_witness :
  Forall (fun r =>
            In (Speed r) [100]
            /\ (3 <= Distance r <= 3)%Z
            /\ speed_distance_to_time (Speed r) (of_Z (Distance r)) (PyBool true)
               = Ok (Time r)
            /\ Income r = income Coal (of_Z 1) (of_Z (Distance r)) (Time r) true)
         (rows {| speed_col := [100]; distance_col := [3%Z];
                  time_col := [3 / (100 / 4 * 24 / 668)];
                  income_col :=
                    [income Coal 1 3 (3 / (100 / 4 * 24 / 668)) true] |}).
Proof.
  apply (@series_samples Q _ Coal 3 3 [100] [false]). reflexivity.
Defined.

Section SeriesQ.

Variable cargo : Cargo.
Variable is_aircraft : pyobj.

Lemma sweep_times_nonzero (speed : Q) (ds : list Z) :
  ~ speed == 0 -> exists ts, sweep_times is_aircraft speed ds = Ok ts.
Proof.
  intro Hs. unfold sweep_times. induction ds as [|d ds [ts IH]]; cbn [mapM].
  - eexists. reflexivity.
  - rewrite (speed_distance_to_time_nonzero (of_Z d) is_aircraft Hs).
    rewrite IH. eexists. reflexivity.
Qed.

Lemma sweep_nonzero (ds : list Z) (speeds : list Q) :
  Forall (fun speed => ~ speed == 0) speeds ->
  forall s, exists s', sweep cargo is_aircraft ds speeds s = Ok s'.
Proof.
  induction 1 as [|x speeds Hx _ IH]; intro s; cbn.
  - eexists. reflexivity.
  - destruct (sweep_times_nonzero ds Hx) as [ts ->]. apply IH.
Qed.

Lemma sweep_zero_speed (d : Z) (ds : list Z) (speeds : list Q) :
  Exists (fun speed => speed == 0) speeds ->
  forall s, sweep cargo is_aircraft (d :: ds) speeds s = Raise ZeroDivisionError.
Proof.
  induction 1 as [x speeds Hx|x speeds _ IH]; intro s; cbn [sweep].
  - unfold sweep_times. cbn [mapM].
    rewrite (speed_distance_to_time_zero (of_Z d) is_aircraft Hx).
    reflexivity.
  - destruct (sweep_times is_aircraft x (d :: ds)) as [ts|e] eqn:E.
    + apply IH.
    + f_equal. exact (@sweep_times_raises Q _ is_aircraft x (d :: ds) e E).
Qed.

End SeriesQ.

(** With flags for every speed and no zero speed the sweep returns a data
    frame, for every cargo and every bounds. *)
Theorem series_succeeds (cargo : Cargo) (distance_bounds : Z * Z)
        (speeds : list Q) (flags : list bool) :
  List.length speeds = List.length flags ->
  Forall (fun speed => ~ speed == 0) speeds ->
  exists df,
    income_vs_distance_speed cargo distance_bounds speeds (PyList flags) = Ok df.
Proof.
  intros Hlen Hnz.
  rewrite (income_vs_distance_speed_equal_length cargo distance_bounds _ _ Hlen).
  pose proof (populate_spec cargo (PyList flags) distance_bounds speeds) as Hspec.
  rewrite populate_run in *.
  destruct (sweep_nonzero cargo (PyList flags)
              (range (fst distance_bounds) (snd distance_bounds + 1))
              Hnz empty_columns) as [s Hs].
  rewrite Hs in *. unfold DataFrame in *.
  destruct (_ && _)%bool; [exists s; reflexivity|].
  discriminate Hspec.
Qed.

Lemma series_succeeds_witness :
  exists df,
    income_vs_distance_speed Coal (0, 500)%Z [50; 100] (PyList [true; false])
    = Ok df.
Proof.
  apply (@series_succeeds Coal (0, 500)%Z [50; 100] [true; false]).
  - reflexivity.
  - repeat constructor; discriminate.
Defined.

(** A zero speed anywhere in the list makes the whole sweep raise
    [ZeroDivisionError] as soon as there is a distance to cover: no data
    frame is returned for the other speeds either. *)
Theorem series_zero_speed_raises (cargo : Cargo) (lo hi : Z)
        (speeds : list Q) (flags : list bool) :
  List.length speeds = List.length flags ->
  (lo <= hi)%Z ->
  Exists (fun speed => speed == 0) speeds ->
  income_vs_distance_speed cargo (lo, hi) speeds (PyList flags) =
    Raise ZeroDivisionError.
Proof.
  intros Hlen Hbounds Hzero.
  rewrite (income_vs_distance_speed_equal_length cargo (lo, hi) _ _ Hlen).
  rewrite populate_run. cbn [fst snd].
  destruct (range lo (hi + 1)) as [|d ds] eqn:E.
  - pose proof (range_length lo (hi + 1)) as Hl. rewrite E in Hl.
    cbn in Hl. lia.
  - rewrite (sweep_zero_speed cargo (PyList flags) d ds Hzero). reflexivity.
Qed.

Lemma series_zero_speed_raises_witness :
  income_vs_distance_speed Coal (0, 500)%Z [50; 0] (PyList [true; false])
  = Raise ZeroDivisionError.
Proof.
  apply (@series_zero_speed_raises Coal 0 500 [50; 0] [true; false]).
  - reflexivity.
  - discriminate.
  - right. left. reflexivity.
Defined.

(** Over positive speeds and distances of at least one tile every sample of
    the series has a positive time and a positive income. *)
Theorem series_positive (cargo : Cargo) (lo hi : Z) (speeds : list Q)
        (flags : list bool) (df : columns Q) :
  Forall (fun speed => 0 < speed) speeds ->
  (1 <= lo)%Z ->
  income_vs_distance_speed cargo (lo, hi) speeds (PyList flags) = Ok df ->
  Forall (fun r => 0 < Time r /\ 0 < Income r) (rows df).
Proof.
  intros Hpos Hlo H.
  destruct (series_rows_ok cargo lo hi speeds flags H) as [_ Hrows].
  eapply Forall_impl; [|exact Hrows].
  intros r (Hin & Hd & Htime & ->).
  apply range_In in Hd.
  assert (Hs : 0 < Speed r).
  { rewrite Forall_forall in Hpos. apply Hpos. exact Hin. }
  assert (Hdist : 0 < inject_Z (Distance r)).
  { replace 0 with (inject_Z 0) by reflexivity. rewrite <- Zlt_Qlt. lia. }
  split.
  - apply speed_distance_to_time_Ok_inv in Htime. destruct Htime as [_ ->].
    apply Qlt_shift_div_l.
    + apply tiles_per_day_pos. exact Hs.
    + cbn [of_Z PyNumber_Q]. lra.
  - apply income_positive; [reflexivity|exact Hdist].
Qed.

Lemma series_positive_witness :
  Forall (fun r => 0 < Time r /\ 0 < Income r)
         (rows {| speed_col := [100]; distance_col := [3%Z];
                  time_col := [3 / (100 / 4 * 24 / 668)];
                  income_col :=
                    [income Coal 1 3 (3 / (100 / 4 * 24 / 668)) true] |}).
Proof.
  apply (@series_positive Coal 3 3 [100] [false]).
  - repeat constructor.
  - discriminate.
  - reflexivity.
Defined.

(** * The callback *)

(** More arguments than parameters never bind. *)
Lemma bind_positional_too_many {V : Type} (params : list (string * option V)) :
  forall args : list V,
    (List.length params < List.length args)%nat ->
    bind_positional params args = Raise TypeError.
Proof.
  induction params as [|[p d] params IH]; intros [|a args] H; cbn in *;
    try lia.
  - reflexivity.
  - rewrite IH by lia. reflexivity.
Qed.

(** Indexing raises nothing but [TypeError] and [IndexError]. *)
Lemma subscript_raises {T : Type} (v : pyvalue T) (i : nat) (e : exn) :
  subscript v i = Raise e -> e = TypeError \/ e = IndexError.
Proof.
  destruct v; cbn; intro H; try (left; congruence).
  - destruct (String.get i s); [discriminate|]. right. congruence.
  - destruct (nth_error l i); [discriminate|]. right. congruence.
Qed.

(** [update_graph] never returns a figure.  It prints its six arguments and
    then raises: [TypeError] or [IndexError] when [distance] cannot be
    indexed at 0 and 1, and otherwise [TypeError], because the call passes
    five positional arguments to the four parameters of
    [income_vs_distance_speed]; the body of that function is never run. *)
Theorem update_graph_never_returns {T : Type} (figure : Type)
        (run_body : list (string * pyvalue T) -> result figure)
        (n_intervals amount distance speed is_aircraft cargo : pyvalue T) :
  fst (update_graph run_body n_intervals amount distance speed is_aircraft cargo)
  = [n_intervals; amount; distance; speed; is_aircraft; cargo]
  /\ (exists e,
         snd (update_graph run_body n_intervals amount distance speed
                           is_aircraft cargo) = Raise e
         /\ (e = TypeError \/ e = IndexError))
  /\ (forall d0 d1,
         subscript distance 0 = Ok d0 -> subscript distance 1 = Ok d1 ->
         snd (update_graph run_body n_intervals amount distance speed
                           is_aircraft cargo) = Raise TypeError).
Proof.
  split; [reflexivity|].
  assert (Hcall : forall d0 d1,
             bind_positional (@income_vs_distance_speed_params T)
               [cargo; amount; VList [d0; d1]; speed; is_aircraft]
             = Raise TypeError).
  { intros d0 d1. apply bind_positional_too_many. cbn. lia. }
  unfold update_graph. cbn [snd]. split.
  - destruct (subscript distance 0) as [d0|e0] eqn:E0; cbn [bind].
    + destruct (subscript distance 1) as [d1|e1] eqn:E1; cbn [bind].
      * rewrite Hcall. cbn [bind]. eexists. split; [reflexivity|]. left.
        reflexivity.
      * exists e1. split; [reflexivity|]. exact (subscript_raises _ _ E1).
    + exists e0. split; [reflexivity|]. exact (subscript_raises _ _ E0).
  - intros d0 d1 -> ->. cbn [bind]. rewrite Hcall. reflexivity.
Qed.
